(** * DNS seed-list and TXT option resolution of the driver (x/mongo/driver/dns/dns.go)

    A shallow embedding of [dns.go]: the two public entry points
    [ResolveHostFromSrvRecords] and
    [ResolveAdditionalQueryParametersFromTxtRecords], the fetch step
    [fetchSeedlistFromSRV] and the two validators [validateSRVResult] and
    [validateTXTResult], together with the functions of Go's [strings], [net]
    and [fmt] packages that they call.

    Conventions.
    - A Go [string] is a sequence of bytes: Rocq's [string] (a list of
      [ascii], one per byte).
    - A Go [error] result is [option error], [None] being [nil]; a function
      returning [([]string, error)] returns the pair as the source writes it.
    - A slice expression or an index out of range panics in Go: code that
      slices or indexes by a computed position returns in [exec], whose
      [Panic] is the run-time panic.
    - The system resolver is a parameter ([Env]); every query sent to it is
      recorded, in order, next to the result of the call. *)

From Stdlib Require Import ZArith NArith Ascii String DecimalString DecimalN Bool Lia.
From stdpp Require Import base tactics option list strings.

Local Open Scope string_scope.
Local Open Scope list_scope.

(** ** Go's [strings] package, for the calls made by [dns.go] *)

Module strings.

(** Go's [len(s)] for a string. *)
Definition len (s : string) : nat := String.length s.

(** [strings.IndexByte(s, c)]: position of the first [c], Go's [-1] is [None]. *)
Fixpoint IndexByte (s : string) (c : ascii) : option nat :=
  match s with
  | EmptyString => None
  | String a rest =>
      if Ascii.eqb a c then Some 0
      else match IndexByte rest c with
           | Some i => Some (S i)
           | None => None
           end
  end.

(** [strings.LastIndexByte(s, c)]: position of the last [c]. *)
Fixpoint LastIndexByte (s : string) (c : ascii) : option nat :=
  match s with
  | EmptyString => None
  | String a rest =>
      match LastIndexByte rest c with
      | Some i => Some (S i)
      | None => if Ascii.eqb a c then Some 0 else None
      end
  end.

(** [strings.HasPrefix(s, prefix)]. *)
Fixpoint HasPrefix (s prefix : string) : bool :=
  match prefix, s with
  | EmptyString, _ => true
  | String _ _, EmptyString => false
  | String p prefix', String a s' => Ascii.eqb a p && HasPrefix s' prefix'
  end.

(** [strings.Contains(s, substr)]. *)
Fixpoint Contains (s substr : string) : bool :=
  HasPrefix s substr ||
  match s with
  | EmptyString => false
  | String _ s' => Contains s' substr
  end.

(** [strings.Split(s, sep)] for a separator of one byte, the only kind
    [dns.go] passes ([","] and ["."]): the substrings between the
    separators, one more than there are separators; [[s]] when [s] has
    none, and [[""]] for the empty string. *)
Fixpoint Split (s : string) (sep : ascii) : list string :=
  match s with
  | EmptyString => [EmptyString]
  | String a rest =>
      if Ascii.eqb a sep then EmptyString :: Split rest sep
      else match Split rest sep with
           | field :: fields => String a field :: fields
           | [] => [String a EmptyString]
           end
  end.

(** [strings.Cut(s, sep)] for a separator of one byte: the text before and
    after the first separator. *)
Fixpoint Cut (s : string) (sep : ascii) : option (string * string) :=
  match s with
  | EmptyString => None
  | String a rest =>
      if Ascii.eqb a sep then Some (EmptyString, rest)
      else match Cut rest sep with
           | Some (before, after) => Some (String a before, after)
           | None => None
           end
  end.

(** [strings.SplitN(s, sep, 2)] for a separator of one byte: at most two
    substrings, the second being the unsplit remainder after the first
    separator. *)
Definition SplitN2 (s : string) (sep : ascii) : list string :=
  match Cut s sep with
  | Some (before, after) => [before; after]
  | None => [s]
  end.

(** [strings.FieldsFunc(s, f)] for a predicate [f] that holds of one-byte
    runes only: the maximal runs of bytes that do not satisfy [f]; empty
    fields are never produced. *)
Fixpoint FieldsFunc (s : string) (f : ascii -> bool) : list string :=
  match s with
  | EmptyString => []
  | String a rest =>
      if f a then FieldsFunc rest f
      else match rest with
           | EmptyString => [String a EmptyString]
           | String b _ =>
               if f b then String a EmptyString :: FieldsFunc rest f
               else match FieldsFunc rest f with
                    | field :: fields => String a field :: fields
                    | [] => [String a EmptyString]
                    end
           end
  end.

(** [strings.Join(elems, "")]. *)
Fixpoint Join (elems : list string) : string :=
  match elems with
  | [] => EmptyString
  | e :: elems' => e ++ Join elems'
  end.

(** [strings.TrimSuffix(s, suffix)] for a suffix of one byte: [s] without
    that byte at its end, once; [s] itself when it does not end with it. *)
Fixpoint TrimSuffix (s : string) (suffix : ascii) : string :=
  match s with
  | EmptyString => EmptyString
  | String a EmptyString => if Ascii.eqb a suffix then EmptyString else s
  | String a rest => String a (TrimSuffix rest suffix)
  end.

(** The ASCII path of [strings.ToLower]: ['A'..'Z'] shifted by ['a' - 'A']. *)
Definition lowerByte (a : ascii) : ascii :=
  let n := N_of_ascii a in
  if (65 <=? n)%N && (n <=? 90)%N then ascii_of_N (n + 32) else a.

Fixpoint lowerASCII (s : string) : string :=
  match s with
  | EmptyString => EmptyString
  | String a rest => String (lowerByte a) (lowerASCII rest)
  end.

(** [isASCII]: no byte of [s] is [utf8.RuneSelf] (0x80) or above. *)
Fixpoint isASCII (s : string) : bool :=
  match s with
  | EmptyString => true
  | String a rest => (N_of_ascii a <? 128)%N && isASCII rest
  end.

(** [strings.ToLower(s)]. Go lowers a string of ASCII bytes byte by byte,
    and maps any other string rune by rune through the Unicode tables,
    [strings.Map(unicode.ToLower, s)]; the tables belong to Go's library
    and are the parameter [mapUnicodeLower]. *)
Definition ToLower (mapUnicodeLower : string -> string) (s : string) : string :=
  if isASCII s then lowerASCII s else mapUnicodeLower s.

End strings.

(** ** The rest of Go's library and run time, as [dns.go] sees it *)

(** A computation that may end in a run-time panic. *)
Inductive exec (A : Type) : Type :=
| Done (a : A)
| Panic.
Arguments Done {A} a.
Arguments Panic {A}.

#[global] Instance exec_ret : MRet exec := fun A a => Done a.

#[global] Instance exec_bind : MBind exec := fun A B f m =>
  match m with
  | Done a => f a
  | Panic => Panic
  end.

(** The slice expression [s[low:]] with a computed [low] (a Go [int]):
    it panics unless [0 <= low <= len(s)]. *)
Definition sliceFrom {A : Type} (s : list A) (low : Z) : exec (list A) :=
  if (0 <=? low)%Z && (low <=? Z.of_nat (length s))%Z
  then Done (drop (Z.to_nat low) s)
  else Panic.

(** The index expression [s[ix]]: it panics when [ix] is out of range. *)
Definition index {A : Type} (s : list A) (ix : nat) : exec A :=
  match s !! ix with
  | Some x => Done x
  | None => Panic
  end.

Module net.

(** [net.SRV]; the ports, priorities and weights are [uint16]. *)
Record SRV : Type := {
  Target : string;
  Port : N;
  Priority : N;
  Weight : N
}.

(** An error of the resolver ([*net.DNSError]), by its message. *)
Definition DNSError : Type := string.

(** The result of a lookup: the [net] package returns either its answer
    with a [nil] error, or a zero answer (a [nil] slice) with an error. *)
Inductive lookup (A : Type) : Type :=
| Found (answer : A)
| Failed (err : DNSError).
Arguments Found {A} answer.
Arguments Failed {A} err.

Definition missingPort : string := "missing port in address".
Definition tooManyColons : string := "too many colons in address".

(** [s[lo:hi]] on a string, for positions inside it. *)
Definition sub (s : string) (lo hi : nat) : string := String.substring lo (hi - lo) s.
Definition from (s : string) (lo : nat) : string := sub s lo (strings.len s).

(** [s[i] == c], for a position [i] inside [s]. *)
Definition byteIs (s : string) (i : nat) (c : ascii) : bool :=
  match String.get i s with
  | Some a => Ascii.eqb a c
  | None => false
  end.

(** [net.SplitHostPort(hostport)]: [inl (host, port)], or [inr why] for an
    [AddrError]. The port starts after the last colon; a host in square
    brackets must end just before it; a host without brackets has no
    colon; no other bracket may occur. *)
Definition SplitHostPort (hostport : string) : (string * string) + string :=
  match strings.LastIndexByte hostport ":" with
  | None => inr missingPort
  | Some i =>
      let checked : (string * nat * nat) + string :=
        if byteIs hostport 0 "[" then
          match strings.IndexByte hostport "]" with
          | None => inr "missing ']' in address"
          | Some end_ =>
              if Nat.eqb (end_ + 1) (strings.len hostport) then inr missingPort
              else if Nat.eqb (end_ + 1) i then inl (sub hostport 1 end_, 1, end_ + 1)
              else if byteIs hostport (end_ + 1) ":" then inr tooManyColons
              else inr missingPort
          end
        else
          let host := sub hostport 0 i in
          match strings.IndexByte host ":" with
          | Some _ => inr tooManyColons
          | None => inl (host, 0, 0)
          end in
      match checked with
      | inr why => inr why
      | inl (host, j, k) =>
          match strings.IndexByte (from hostport j) "[" with
          | Some _ => inr "unexpected '[' in address"
          | None =>
              match strings.IndexByte (from hostport k) "]" with
              | Some _ => inr "unexpected ']' in address"
              | None => inl (host, from hostport (i + 1))
              end
          end
      end
  end.

End net.

Module fmt.

(** The verb [%d] on an unsigned integer. *)
Definition decimal (n : N) : string := NilEmpty.string_of_uint (N.to_uint n).

(** [fmt.Sprintf("%s:%d", target, port)]. *)
Definition Sprintf_s_colon_d (target : string) (port : N) : string :=
  target ++ ":" ++ decimal port.

(** [fmt.Errorf("Cannot specify option '%s' in TXT record", key)], its message. *)
Definition Sprintf_option (key : string) : string :=
  "Cannot specify option '" ++ key ++ "' in TXT record".

End fmt.

Import net.

(** A query sent to the system resolver. *)
Inductive Query : Type :=
| QuerySRV (service proto name : string)
| QueryTXT (name : string).

(** What [dns.go] takes from outside itself: the resolver behind
    [net.LookupSRV] and [net.LookupTXT], the platform name [runtime.GOOS],
    and the Unicode branch of [strings.ToLower]. *)
Record Env : Type := {
  LookupSRV : string -> string -> string -> lookup (string * list SRV);
  LookupTXT : string -> lookup (list string);
  GOOS : string;
  mapUnicodeLower : string -> string
}.

(** ** [dns.go] *)

(** The error values [dns.go] returns, one constructor for each place that
    creates one ([errors.New], [fmt.Errorf]) and one for the error of
    [net.LookupSRV], which is returned as it is. *)
Inductive error : Type :=
| ErrOneHostname                    (* ResolveHostFromSrvRecords *)
| ErrPortNumber                     (* fetchSeedlistFromSRV, after net.SplitHostPort *)
| ErrLookupSRV (err : DNSError)     (* fetchSeedlistFromSRV, after net.LookupSRV *)
| ErrMultipleTXT                    (* ResolveAdditionalQueryParametersFromTxtRecords *)
| ErrTwoLabels                      (* validateSRVResult, first test *)
| ErrDomainSuffix                   (* validateSRVResult, second test and loop *)
| ErrInvalidTXT                     (* validateTXTResult, no "=" *)
| ErrOptionNotAllowed (key : string). (* validateTXTResult, key not allowed *)

(** The method [Error()] of these values: the message. *)
Definition Error (e : error) : string :=
  match e with
  | ErrOneHostname => "URI with SRV must include one and only one hostname"
  | ErrPortNumber => "URI with srv must not include a port number"
  | ErrLookupSRV err => err
  | ErrMultipleTXT => "multiple records from TXT not supported"
  | ErrTwoLabels => "DNS name must contain at least 2 labels"
  | ErrDomainSuffix => "Domain suffix from SRV record not matched input domain"
  | ErrInvalidTXT => "Invalid TXT record"
  | ErrOptionNotAllowed key => fmt.Sprintf_option key
  end.

(** The source has one error type; the specification names three kinds of
    error, which group the places above. *)
Inductive ErrorKind : Type := InvalidInput | ResolutionFailure | SecurityValidation.

Definition kindOf (e : error) : ErrorKind :=
  match e with
  | ErrOneHostname | ErrPortNumber | ErrMultipleTXT | ErrInvalidTXT
  | ErrOptionNotAllowed _ => InvalidInput
  | ErrLookupSRV _ => ResolutionFailure
  | ErrTwoLabels | ErrDomainSuffix => SecurityValidation
  end.

(** [type DnsResolver struct]. The two record lists hold [*net.SRV]; the
    pointers are taken to be non-nil and a record is its value. A [nil]
    list and an empty one behave alike in every use below. *)
Record DnsResolver : Type := {
  RecordsToAdd : list SRV;
  RecordsToRemove : list SRV;
  TestingRescanFrequencyMS : Z
}.

(** *** validateSRVResult *)

(** The loop [for ix, label := range inputDomainSuffix], from index [ix]. *)
Fixpoint compareSuffix (inputDomainSuffix recordDomainSuffix : list string) (ix : nat)
  : exec (option error) :=
  match inputDomainSuffix with
  | [] => mret None
  | label :: rest =>
      r ← index recordDomainSuffix ix;
      if String.eqb label r then compareSuffix rest recordDomainSuffix (S ix)
      else mret (Some ErrDomainSuffix)
  end.

Definition validateSRVResult (recordFromSRV inputHostName : string) : exec (option error) :=
  let separatedInputDomain := strings.Split inputHostName "." in
  let separatedRecord := strings.Split recordFromSRV "." in
  if (length separatedRecord <? 2)%nat then mret (Some ErrTwoLabels)
  else if (length separatedRecord <? length separatedInputDomain)%nat then mret (Some ErrDomainSuffix)
  else
    inputDomainSuffix ← sliceFrom separatedInputDomain 1;
    let domainSuffixOffset :=
      (Z.of_nat (length separatedRecord) - (Z.of_nat (length separatedInputDomain) - 1))%Z in
    recordDomainSuffix ← sliceFrom separatedRecord domainSuffixOffset;
    compareSuffix inputDomainSuffix recordDomainSuffix 0.

(** *** validateTXTResult *)

(** [var allowedTXTOptions], and the test [_, ok := allowedTXTOptions[key]]. *)
Definition allowedTXTOptions : list string := ["authsource"; "replicaset"].

Definition allowed (key : string) : bool :=
  existsb (String.eqb key) allowedTXTOptions.

(** The body of the loop, for one [param]: [kv[0]] is read after the test
    [len(kv) != 2]. *)
Definition validateTXTParam (env : Env) (param : string) : option error :=
  match strings.SplitN2 param "=" with
  | [kv0; _] =>
      let key := strings.ToLower (mapUnicodeLower env) kv0 in
      if allowed key then None else Some (ErrOptionNotAllowed kv0)
  | _ => Some ErrInvalidTXT
  end.

Fixpoint validateTXTResult (env : Env) (paramsFromTXT : list string) : option error :=
  match paramsFromTXT with
  | [] => None
  | param :: rest =>
      match validateTXTParam env param with
      | Some err => Some err
      | None => validateTXTResult env rest
      end
  end.

(** *** fetchSeedlistFromSRV *)

(** [removeAddr.Target == addr.Target && removeAddr.Port == addr.Port]. *)
Definition sameTargetPort (removeAddr addr : SRV) : bool :=
  String.eqb (Target removeAddr) (Target addr) && N.eqb (Port removeAddr) (Port addr).

(** The variable [addresses] while records are removed: the backing array
    of the slice (as far as the loop reads it) and the current [len]. Its
    capacity is at least the length of the array. *)
Definition slice : Type := list SRV * nat.

(** [addresses = append(addresses[:j], addresses[j+1:]...)]. [addresses[:j]]
    may reach into the capacity; [addresses[j+1:]] panics when [j+1] is
    beyond [len(addresses)]. The appended records fit the capacity, so they
    are copied inside the same array, one place to the left; the array
    keeps what it held from the old last place on. *)
Definition removeAt (addresses : slice) (j : nat) : exec slice :=
  let '(array, len) := addresses in
  if (j <=? length array)%nat && (j + 1 <=? len)%nat
  then Done (take j array ++ take (len - (j + 1)) (drop (j + 1) array) ++ drop (len - 1) array,
             len - 1)
  else Panic.

(** [for j, addr := range addresses { if ... { addresses = append(...) } }]:
    the range expression is evaluated once, so [j] runs over the indices
    [js] of the slice as it was when the loop began, and [addr] is read at
    [j] from the array, which the body changes. *)
Fixpoint removeScan (removeAddr : SRV) (js : list nat) (addresses : slice) : exec slice :=
  match js with
  | [] => mret addresses
  | j :: js' =>
      addr ← index (fst addresses) j;
      if sameTargetPort removeAddr addr
      then addresses' ← removeAt addresses j; removeScan removeAddr js' addresses'
      else removeScan removeAddr js' addresses
  end.

Definition removeRecord (removeAddr : SRV) (addresses : list SRV) : exec (list SRV) :=
  s ← removeScan removeAddr (seq 0 (length addresses)) (addresses, length addresses);
  mret (take (snd s) (fst s)).

(** [for _, removeAddr := range d.RecordsToRemove { ... }]. *)
Fixpoint removeRecords (recordsToRemove : list SRV) (addresses : list SRV) : exec (list SRV) :=
  match recordsToRemove with
  | [] => mret addresses
  | removeAddr :: rest =>
      addresses' ← removeRecord removeAddr addresses;
      removeRecords rest addresses'
  end.

(** [for i, address := range addresses { ... }], from index [i], filling
    [parsedHosts] in place. *)
Fixpoint formatSeeds (host : string) (i : nat) (addresses : list SRV) (parsedHosts : list string)
  : exec (list string * option error) :=
  match addresses with
  | [] => mret (parsedHosts, None)
  | address :: rest =>
      let trimmedAddressTarget := strings.TrimSuffix (Target address) "." in
      err ← validateSRVResult trimmedAddressTarget host;
      match err with
      | Some e => mret ([], Some e)
      | None =>
          formatSeeds host (S i) rest
            (<[i := fmt.Sprintf_s_colon_d trimmedAddressTarget (Port address)]> parsedHosts)
      end
  end.

(** The result, and the queries sent to the resolver during the call. *)
Definition fetchSeedlistFromSRV (env : Env) (d : DnsResolver) (host : string)
  : exec (list string * option error) * list Query :=
  match SplitHostPort host with
  | inl _ => (mret ([], Some ErrPortNumber), [])
  | inr _ =>
      let queries := [QuerySRV "mongodb" "tcp" host] in
      match LookupSRV env "mongodb" "tcp" host with
      | Failed err => (mret ([], Some (ErrLookupSRV err)), queries)
      | Found (_, addresses) =>
          let addresses := addresses ++ RecordsToAdd d in
          (addresses ← removeRecords (RecordsToRemove d) addresses;
           formatSeeds host 0 addresses (replicate (length addresses) ""),
           queries)
      end
  end.

(** *** The entry points *)

Definition ResolveHostFromSrvRecords (env : Env) (d : DnsResolver) (host : string)
  : exec (list string * option error) * list Query :=
  let parsedHosts := strings.Split host "," in
  if negb (length parsedHosts =? 1)%nat then (mret ([], Some ErrOneHostname), [])
  else
    match parsedHosts with
    | parsedHosts0 :: _ =>
        let '(r, queries) := fetchSeedlistFromSRV env d parsedHosts0 in
        (res ← r;
         match res with
         | (_, Some err) => mret ([], Some err)
         | (parsedHosts, None) => mret (parsedHosts, None)
         end,
         queries)
    | [] => (Panic, [])
    end.

(** [func(r rune) bool { return r == ';' || r == '&' }]. *)
Definition isSeparator (r : ascii) : bool := Ascii.eqb r ";" || Ascii.eqb r "&".

(** The records after the step for Windows. *)
Definition recordsAfterJoin (env : Env) (recordsFromTXT : list string) : list string :=
  if String.eqb (GOOS env) "windows" then [strings.Join recordsFromTXT] else recordsFromTXT.

Definition ResolveAdditionalQueryParametersFromTxtRecords (env : Env) (d : DnsResolver)
  (host : string) : (list string * option error) * list Query :=
  let queries := [QueryTXT host] in
  let recordsFromTXT :=
    match LookupTXT env host with
    | Found records => records
    | Failed _ => []
    end in
  let recordsFromTXT := recordsAfterJoin env recordsFromTXT in
  if (1 <? length recordsFromTXT)%nat then (([], Some ErrMultipleTXT), queries)
  else
    match recordsFromTXT with
    | recordsFromTXT0 :: _ =>
        let connectionArgsFromTXT := strings.FieldsFunc recordsFromTXT0 isSeparator in
        match validateTXTResult env connectionArgsFromTXT with
        | Some err => (([], Some err), queries)
        | None => ((connectionArgsFromTXT, None), queries)
        end
    | [] => (([], None), queries)
    end.

(** ** Names for what the claims speak of *)

(** The dot-separated labels of a name. *)
Definition labels (name : string) : list string := strings.Split name ".".

(** [parent(h)]: the labels of the discovery host without the first. *)
Definition parent (host : string) : list string := drop 1 (labels host).

(** A name is a subdomain of a domain when its labels end with the labels
    of the domain and there is at least one more label in front. *)
Definition subdomain (name domain : list string) : Prop :=
  exists front, front <> [] /\ name = front ++ domain.

(** The test of [validateSRVResult], without the panics: what it returns
    when no slice or index is out of range. *)
Definition suffixError (recordFromSRV inputHostName : string) : option error :=
  let hostLabels := labels inputHostName in
  let recordLabels := labels recordFromSRV in
  if (length recordLabels <? 2)%nat then Some ErrTwoLabels
  else if (length recordLabels <? length hostLabels)%nat then Some ErrDomainSuffix
  else if decide (drop (length recordLabels - (length hostLabels - 1)) recordLabels
                  = drop 1 hostLabels)
       then None else Some ErrDomainSuffix.

(** The target of a record as it is validated and printed. *)
Definition trimmed (r : SRV) : string := strings.TrimSuffix (Target r) ".".

(** The seed address of a record. *)
Definition seed (r : SRV) : string := fmt.Sprintf_s_colon_d (trimmed r) (Port r).

(** The first error of the validation over a list of records. *)
Fixpoint firstError (host : string) (addresses : list SRV) : option error :=
  match addresses with
  | [] => None
  | r :: rest =>
      match suffixError (trimmed r) host with
      | Some e => Some e
      | None => firstError host rest
      end
  end.

(** The message of an error names a record and the host when both occur
    in it. *)
Definition identifies (e : error) (r : SRV) (host : string) : Prop :=
  strings.Contains (Error e) (trimmed r) = true /\ strings.Contains (Error e) host = true.

(** A token of a TXT record that [validateTXTResult] lets through: it has
    a key before its first ["="] and the lowered key is on the list. *)
Definition goodParam (env : Env) (param : string) : Prop :=
  exists key value,
    strings.SplitN2 param "=" = [key; value] /\
    (strings.ToLower (mapUnicodeLower env) key = "authsource" \/
     strings.ToLower (mapUnicodeLower env) key = "replicaset").

(** What the removal loop compares: target and port. *)
Definition key (r : SRV) : string * N := (Target r, Port r).

(** A record stays when no entry of [recordsToRemove] has its target and
    port. *)
Definition kept (recordsToRemove : list SRV) (addr : SRV) : bool :=
  forallb (fun removeAddr => negb (sameTargetPort removeAddr addr)) recordsToRemove.

(** The statement that the error returned for a record that fails the
    validation names that record and the host; [r] is the first record of
    the working set that fails. *)
Definition invalid_record_is_identified : Prop :=
  forall (env : Env) (d : DnsResolver) (host cname : string)
         (addrs before after : list SRV) (r : SRV),
    (exists why, SplitHostPort host = inr why) ->
    LookupSRV env "mongodb" "tcp" host = Found (cname, addrs) ->
    removeRecords (RecordsToRemove d) (addrs ++ RecordsToAdd d) = Done (before ++ r :: after) ->
    Forall (fun r' => validateSRVResult (trimmed r') host = Done None) before ->
    validateSRVResult (trimmed r) host <> Done None ->
    exists e,
      (fetchSeedlistFromSRV env d host).1 = Done ([], Some e) /\
      kindOf e = SecurityValidation /\
      identifies e r host.

(** ** A resolver and records for the examples *)

Definition srv (target : string) (port : N) : SRV :=
  {| Target := target; Port := port; Priority := 0; Weight := 0 |}.

(** A resolver that answers every SRV query with [records] and every TXT
    query with [txt]. The examples use ASCII text only, for which the
    Unicode branch of [strings.ToLower] is not taken. *)
Definition resolver (records : list SRV) (txt : lookup (list string)) (goos : string) : Env :=
  {| LookupSRV := fun _ _ _ => Found ("", records);
     LookupTXT := fun _ => txt;
     GOOS := goos;
     mapUnicodeLower := fun s => s |}.

Definition testRecords (add remove : list SRV) : DnsResolver :=
  {| RecordsToAdd := add; RecordsToRemove := remove; TestingRescanFrequencyMS := 0 |}.

Definition noTestRecords : DnsResolver := testRecords [] [].

(** ** What the removal loop computes

    A pure reading of the loop [for j, addr := range addresses] for one
    [removeAddr], to compare with [removeRecord]. *)

(** The records left: a record that matches is dropped, and the record
    behind it, which moves into the place just read, is kept without being
    compared. *)
Fixpoint removeSkipping (removeAddr : SRV) (addresses : list SRV) : list SRV :=
  match addresses with
  | [] => []
  | addr :: rest =>
      if sameTargetPort removeAddr addr
      then match rest with
           | [] => []
           | next :: rest' => next :: removeSkipping removeAddr rest'
           end
      else addr :: removeSkipping removeAddr rest
  end.

(** The loop panics: the last record matches and so does one before it. *)
Definition removalPanics (removeAddr : SRV) (addresses : list SRV) : bool :=
  match last addresses with
  | Some lastAddr =>
      sameTargetPort removeAddr lastAddr
      && existsb (sameTargetPort removeAddr) (removelast addresses)
  | None => false
  end.

(** The resolver [env] with every SRV query answered by [records]. *)
Definition answering (env : Env) (records : list SRV) : Env :=
  {| LookupSRV := fun _ _ _ => Found ("", records);
     LookupTXT := LookupTXT env;
     GOOS := GOOS env;
     mapUnicodeLower := mapUnicodeLower env |}.

(** A field for the predicate [f]: a text that is not empty and has no
    byte of which [f] holds. *)
Definition isField (f : ascii -> bool) (t : string) : Prop :=
  t <> "" /\ forall c, f c = true -> strings.IndexByte t c = None.

(** Options written into one TXT record, with [sep] between them. *)
Fixpoint joinOptions (sep : ascii) (options : list string) : string :=
  match options with
  | [] => ""
  | [o] => o
  | o :: rest => o ++ String sep (joinOptions sep rest)
  end.

(** The resolver [env] on the platform [goos], with every TXT query
    answered by [txt]. *)
Definition withTXT (env : Env) (goos : string) (txt : lookup (list string)) : Env :=
  {| LookupSRV := LookupSRV env;
     LookupTXT := fun _ => txt;
     GOOS := goos;
     mapUnicodeLower := mapUnicodeLower env |}.

(** [f] holds of every byte of [s]. *)
Fixpoint allBytes (f : ascii -> bool) (s : string) : bool :=
  match s with
  | EmptyString => true
  | String a rest => f a && allBytes f rest
  end.

(** ** Facts about the string functions *)

#[local] Arguments String.append !_ _ / : simpl nomatch.

Section string_facts.
Import strings.

Lemma Split_nonempty s c : Split s c <> [].
Proof.
  destruct s as [|a s]; simpl; [done|].
  destruct (Ascii.eqb a c); [done|]. by destruct (Split s c).
Qed.

Lemma Split_length_pos s c : 1 <= length (Split s c).
Proof.
  pose proof (Split_nonempty s c). destruct (Split s c); simpl; [done|lia].
Qed.

Lemma Split_no_sep s c : IndexByte s c = None -> Split s c = [s].
Proof.
  induction s as [|a s IH]; simpl; [done|].
  destruct (Ascii.eqb a c); [done|].
  destruct (IndexByte s c); [done|]. intros _. by rewrite IH.
Qed.

Lemma Split_single s c : length (Split s c) = 1 -> IndexByte s c = None.
Proof.
  induction s as [|a s IH]; simpl; [done|].
  destruct (Ascii.eqb a c); simpl.
  - pose proof (Split_length_pos s c). lia.
  - destruct (Split s c) as [|f fs] eqn:E; simpl in *.
    + by destruct (Split_nonempty s c).
    + intros H. by rewrite IH.
Qed.

End string_facts.

(** ** validateSRVResult *)

Lemma compareSuffix_eval (input record : list string) (ix : nat) :
  ix + length input <= length record ->
  compareSuffix input record ix =
    Done (if decide (take (length input) (drop ix record) = input)
          then None else Some ErrDomainSuffix).
Proof.
  revert ix. induction input as [|label rest IH]; intros ix Hlen; simpl in *.
  - reflexivity.
  - destruct (lookup_lt_is_Some_2 record ix) as [r Hr]; [lia|].
    unfold index. rewrite Hr. simpl.
    rewrite (drop_S _ _ _ Hr). simpl.
    destruct (String.eqb_spec label r) as [->|Hne].
    + rewrite IH by lia.
      destruct (decide (take (length rest) (drop (S ix) record) = rest)) as [->|Hd].
      * by rewrite decide_True.
      * rewrite decide_False; [done|]. congruence.
    + rewrite decide_False; [done|]. congruence.
Qed.

Lemma sliceFrom_eval {A : Type} (s : list A) (low : Z) :
  (0 <= low <= Z.of_nat (length s))%Z -> sliceFrom s low = Done (drop (Z.to_nat low) s).
Proof.
  intros [H0 H1]. unfold sliceFrom.
  apply Z.leb_le in H0, H1. by rewrite H0, H1.
Qed.

(** [validateSRVResult] never panics: its slices and indices are in range
    after the two tests on the number of labels. *)
Lemma validateSRVResult_eval (recordFromSRV inputHostName : string) :
  validateSRVResult recordFromSRV inputHostName = Done (suffixError recordFromSRV inputHostName).
Proof.
  unfold validateSRVResult, suffixError, labels.
  pose proof (Split_length_pos inputHostName ".") as Hh.
  set (hl := strings.Split inputHostName ".") in *.
  set (rl := strings.Split recordFromSRV ".") in *.
  destruct (Nat.ltb_spec (length rl) 2) as [|H2]; [done|].
  destruct (Nat.ltb_spec (length rl) (length hl)) as [|Hge]; [done|].
  rewrite !sliceFrom_eval by lia. simpl.
  replace (Z.to_nat (Z.of_nat (length rl) - (Z.of_nat (length hl) - 1)))
    with (length rl - (length hl - 1)) by lia.
  change (Z.to_nat 1) with 1.
  rewrite compareSuffix_eval by (rewrite !length_drop; lia).
  rewrite drop_0, take_ge by (rewrite !length_drop; lia).
  done.
Qed.

Lemma suffixError_kind (record host : string) (e : error) :
  suffixError record host = Some e ->
  (e = ErrTwoLabels \/ e = ErrDomainSuffix) /\ kindOf e = SecurityValidation.
Proof.
  unfold suffixError. intros H.
  repeat case_match; simplify_eq; auto.
Qed.

Lemma suffixError_None_iff (record host : string) :
  suffixError record host = None <->
    2 <= length (labels record) /\
    length (labels host) <= length (labels record) /\
    drop (length (labels record) - (length (labels host) - 1)) (labels record)
      = drop 1 (labels host).
Proof.
  unfold suffixError.
  destruct (Nat.ltb_spec (length (labels record)) 2);
    [split; [done | lia]|].
  destruct (Nat.ltb_spec (length (labels record)) (length (labels host)));
    [split; [done | lia]|].
  case_decide as Hd; split; try done.
  intros (_ & _ & Heq). by destruct Hd.
Qed.

(** Acceptance is the subdomain relation with the parent of the host, for
    records of two labels or more. *)
Lemma suffixError_None_subdomain (record host : string) :
  suffixError record host = None <->
    2 <= length (labels record) /\ subdomain (labels record) (parent host).
Proof.
  rewrite suffixError_None_iff. unfold subdomain, parent.
  pose proof (Split_length_pos host ".") as Hh. fold (labels host) in Hh.
  set (rl := labels record). set (hl := labels host) in *.
  split.
  - intros (H2 & Hge & Heq). split; [done|].
    exists (take (length rl - (length hl - 1)) rl). split.
    + intros Hnil. apply (f_equal length) in Hnil.
      rewrite length_take in Hnil. simpl in Hnil. lia.
    + by rewrite <- Heq, take_drop.
  - intros (H2 & front & Hne & Heq). split; [done|].
    assert (length rl = length front + (length hl - 1)) as Hlen.
    { rewrite Heq, length_app, length_drop. done. }
    assert (0 < length front) by (destruct front; [done | simpl; lia]).
    split; [lia|].
    replace (length rl - (length hl - 1)) with (length front) by lia.
    by rewrite Heq, drop_app_length.
Qed.

(** ** fetchSeedlistFromSRV: the loop that validates and formats *)

Lemma formatSeeds_eval (host : string) (addresses : list SRV) (i : nat)
    (parsedHosts : list string) :
  i + length addresses <= length parsedHosts ->
  formatSeeds host i addresses parsedHosts =
    Done (match firstError host addresses with
          | Some e => ([], Some e)
          | None => (take i parsedHosts ++ map seed addresses
                       ++ drop (i + length addresses) parsedHosts, None)
          end).
Proof.
  revert i parsedHosts.
  induction addresses as [|r rest IH]; intros i parsedHosts Hlen; simpl in *.
  - by rewrite Nat.add_0_r, take_drop.
  - rewrite validateSRVResult_eval. simpl. fold (trimmed r).
    destruct (suffixError (trimmed r) host) as [e|]; [done|].
    rewrite IH; [|rewrite length_insert; lia].
    destruct (firstError host rest); [done|].
    do 2 f_equal. fold (seed r).
    assert (i < length parsedHosts) as Hi by lia.
    assert (length (take i parsedHosts) = i) as Hl by (rewrite length_take; lia).
    rewrite (insert_take_drop _ _ _ Hi), take_app, drop_app, Hl, take_take.
    rewrite (drop_ge (take i parsedHosts)) by lia.
    replace (S i `min` i) with i by lia.
    replace (S i - i) with 1 by lia.
    replace (S i + length rest - i) with (S (length rest)) by lia.
    simpl. rewrite take_0, drop_drop, <- app_assoc. simpl.
    by replace (i + S (length rest)) with (S (i + length rest)) by lia.
Qed.

Lemma formatSeeds_fresh (host : string) (addresses : list SRV) :
  formatSeeds host 0 addresses (replicate (length addresses) "") =
    Done (match firstError host addresses with
          | Some e => ([], Some e)
          | None => (map seed addresses, None)
          end).
Proof.
  rewrite formatSeeds_eval by (rewrite length_replicate; lia).
  destruct (firstError host addresses); [done|].
  rewrite take_0, drop_replicate. simpl.
  replace (length addresses - length addresses) with 0 by lia.
  simpl. by rewrite app_nil_r.
Qed.

Lemma firstError_None (host : string) (addresses : list SRV) :
  firstError host addresses = None <->
  Forall (fun r => suffixError (trimmed r) host = None) addresses.
Proof.
  induction addresses as [|r rest IH]; simpl.
  - split; [constructor | done].
  - rewrite Forall_cons, <- IH.
    destruct (suffixError (trimmed r) host); [|tauto].
    split; [done | by intros [? _]].
Qed.

(** The error of the loop is the error of the first record that fails. *)
Lemma firstError_Some (host : string) (addresses : list SRV) (e : error) :
  firstError host addresses = Some e <->
  exists before r after,
    addresses = before ++ r :: after /\
    Forall (fun r => suffixError (trimmed r) host = None) before /\
    suffixError (trimmed r) host = Some e.
Proof.
  induction addresses as [|r rest IH]; simpl.
  - split; [done|]. intros (before & r & after & H & _). by destruct before.
  - destruct (suffixError (trimmed r) host) as [e'|] eqn:E.
    + split.
      * intros [= ->]. exists [], r, rest. by repeat constructor.
      * intros (before & r' & after & Heq & Hall & Herr).
        destruct before as [|b before]; simpl in Heq; injection Heq as <- ->.
        -- congruence.
        -- apply Forall_cons in Hall as [Hb _]. congruence.
    + rewrite IH. split.
      * intros (before & r' & after & -> & Hall & Herr).
        exists (r :: before), r', after. by repeat constructor.
      * intros (before & r' & after & Heq & Hall & Herr).
        destruct before as [|b before]; simpl in Heq; injection Heq as <- ->.
        -- congruence.
        -- apply Forall_cons in Hall as [_ Hall].
           exists before, r', after. done.
Qed.

Lemma firstError_invalid (host : string) (addresses : list SRV) (r : SRV) :
  r ∈ addresses -> suffixError (trimmed r) host <> None ->
  exists e, firstError host addresses = Some e /\ kindOf e = SecurityValidation.
Proof.
  intros Hin Hbad.
  destruct (firstError host addresses) as [e|] eqn:E.
  - exists e. split; [done|].
    apply firstError_Some in E as (_ & r' & _ & _ & _ & Herr).
    by apply suffixError_kind in Herr as [_ ?].
  - apply firstError_None in E. rewrite Forall_forall in E.
    by destruct Hbad; apply E.
Qed.

(** [fetchSeedlistFromSRV] once the host has no port and the lookup has
    answered: the records are added, removed, validated and formatted. *)
Lemma fetchSeedlistFromSRV_found (env : Env) (d : DnsResolver) (host cname : string)
    (addrs ws : list SRV) :
  (exists why, SplitHostPort host = inr why) ->
  LookupSRV env "mongodb" "tcp" host = Found (cname, addrs) ->
  removeRecords (RecordsToRemove d) (addrs ++ RecordsToAdd d) = Done ws ->
  fetchSeedlistFromSRV env d host =
    (Done (match firstError host ws with
           | Some e => ([], Some e)
           | None => (map seed ws, None)
           end),
     [QuerySRV "mongodb" "tcp" host]).
Proof.
  intros [why Hsplit] Hlookup Hremove. unfold fetchSeedlistFromSRV.
  rewrite Hsplit, Hlookup, Hremove. simpl. by rewrite formatSeeds_fresh.
Qed.

(** ** fetchSeedlistFromSRV: the loop that removes records *)

#[local] Arguments removeAt : simpl never.

Lemma removeScan_app (removeAddr : SRV) (js1 js2 : list nat) (s : slice) :
  removeScan removeAddr (js1 ++ js2) s =
    s' ← removeScan removeAddr js1 s; removeScan removeAddr js2 s'.
Proof.
  revert s. induction js1 as [|j js1 IH]; intros s; simpl; [done|].
  destruct (index s.1 j) as [addr|]; simpl; [|done].
  destruct (sameTargetPort removeAddr addr); [|apply IH].
  destruct (removeAt s j) as [s'|]; simpl; [apply IH | done].
Qed.

(** A scan over places that hold no matching record changes nothing. *)
Lemma removeScan_no_match (removeAddr : SRV) (js : list nat) (array : list SRV) (len : nat) :
  (forall j, j ∈ js -> exists addr, array !! j = Some addr /\ sameTargetPort removeAddr addr = false) ->
  removeScan removeAddr js (array, len) = Done (array, len).
Proof.
  induction js as [|j js IH]; intros Hjs; simpl; [done|].
  destruct (Hjs j) as (addr & Haddr & Hno); [by left|].
  unfold index. rewrite Haddr. simpl. rewrite Hno.
  apply IH. intros j' Hj'. apply Hjs. by right.
Qed.

(** Removing a record that is not among the addresses leaves them as they
    are. *)
Lemma removeRecord_absent (removeAddr : SRV) (addresses : list SRV) :
  (forall addr, addr ∈ addresses -> sameTargetPort removeAddr addr = false) ->
  removeRecord removeAddr addresses = Done addresses.
Proof.
  intros Hno. unfold removeRecord.
  rewrite removeScan_no_match; simpl.
  - by rewrite firstn_all.
  - intros j Hj. apply elem_of_seq in Hj as [_ Hj].
    destruct (lookup_lt_is_Some_2 addresses j) as [addr Haddr]; [done|].
    exists addr. split; [done|]. apply Hno. by eapply list_elem_of_lookup_2.
Qed.

Lemma removeRecords_absent (recordsToRemove addresses : list SRV) :
  (forall removeAddr addr, removeAddr ∈ recordsToRemove -> addr ∈ addresses ->
     sameTargetPort removeAddr addr = false) ->
  removeRecords recordsToRemove addresses = Done addresses.
Proof.
  induction recordsToRemove as [|r rs IH]; intros Hno; simpl; [done|].
  rewrite removeRecord_absent by (intros addr; apply Hno; by left). simpl.
  apply IH. intros r' addr Hr'. apply Hno. by right.
Qed.

(** One removal deletes the record at [j] from the slice. *)
Lemma removeAt_delete (array array' : list SRV) (len len' j : nat) :
  len <= length array ->
  removeAt (array, len) j = Done (array', len') ->
  j < len /\ len' = len - 1 /\ length array' = length array /\
  take len' array' = delete j (take len array) /\
  drop len' array' = drop (len - 1) array.
Proof.
  intros Hlen. unfold removeAt.
  destruct (Nat.leb_spec j (length array)) as [Hj|]; [|done].
  destruct (Nat.leb_spec (j + 1) len) as [Hj1|]; [|done]. simpl.
  intros [= <- <-].
  assert (length (take j array ++ take (len - (j + 1)) (drop (j + 1) array)) = len - 1) as Hl.
  { rewrite length_app, !length_take, length_drop. lia. }
  rewrite app_assoc.
  split_and!; [lia | done | | |].
  - rewrite length_app, Hl, length_drop. lia.
  - rewrite take_app_length' by done.
    rewrite delete_take_drop, take_take, take_drop_commute.
    replace (j `min` len) with j by lia.
    replace (j + 1 + (len - (j + 1))) with len by lia.
    by replace (S j) with (j + 1) by lia.
  - by rewrite drop_app_length'.
Qed.

(** A scan only deletes records from the slice: what remains is a sublist
    of what there was, in the same order. *)
Lemma removeScan_sublist (removeAddr : SRV) (js : list nat) (array array' : list SRV)
    (len len' : nat) :
  len <= length array ->
  removeScan removeAddr js (array, len) = Done (array', len') ->
  len' <= length array' /\ take len' array' `sublist_of` take len array.
Proof.
  revert array len. induction js as [|j js IH]; intros array len Hlen; simpl.
  - by intros [= <- <-].
  - destruct (index array j) as [addr|]; simpl; [|done].
    destruct (sameTargetPort removeAddr addr); [|by apply IH].
    destruct (removeAt (array, len) j) as [[array1 len1]|] eqn:E; simpl; [|done].
    apply removeAt_delete in E as (Hj & -> & Hlen1 & Htake & _); [|done].
    intros Hscan. apply IH in Hscan as [? Hsub]; [|lia].
    split; [done|]. etrans; [exact Hsub|].
    rewrite Htake. apply sublist_delete.
Qed.

Lemma removeRecord_sublist (removeAddr : SRV) (addresses addresses' : list SRV) :
  removeRecord removeAddr addresses = Done addresses' ->
  addresses' `sublist_of` addresses.
Proof.
  unfold removeRecord.
  destruct (removeScan _ _ _) as [[array' len']|] eqn:E; simpl; [|done].
  intros [= <-]. apply removeScan_sublist in E as [_ Hsub]; [|done].
  by rewrite firstn_all in Hsub.
Qed.

Lemma removeRecords_sublist (recordsToRemove addresses addresses' : list SRV) :
  removeRecords recordsToRemove addresses = Done addresses' ->
  addresses' `sublist_of` addresses.
Proof.
  revert addresses. induction recordsToRemove as [|r rs IH]; intros addresses; simpl.
  - by intros [= <-].
  - destruct (removeRecord r addresses) as [a1|] eqn:E; simpl; [|done].
    intros H. etrans; [by apply IH | by apply (removeRecord_sublist r)].
Qed.

(** *** Records that differ in target or port

    When no two addresses share target and port, at most one of them
    matches an entry to remove, and the loop removes exactly that one. *)

Lemma sameTargetPort_key (removeAddr addr : SRV) :
  sameTargetPort removeAddr addr = true <-> key removeAddr = key addr.
Proof.
  unfold sameTargetPort, key. rewrite andb_true_iff, String.eqb_eq, N.eqb_eq.
  split; [by intros [-> ->] | by intros [= -> ->]].
Qed.

Lemma NoDup_key_match (removeAddr : SRV) (addresses : list SRV) :
  NoDup (map key addresses) ->
  (forall addr, addr ∈ addresses -> sameTargetPort removeAddr addr = false) \/
  (exists before x after,
     addresses = before ++ x :: after /\
     sameTargetPort removeAddr x = true /\
     forall addr, addr ∈ before ++ after -> sameTargetPort removeAddr addr = false).
Proof.
  induction addresses as [|a l IH]; simpl; intros Hnd.
  - left. intros addr Hin. by apply elem_of_nil in Hin.
  - apply NoDup_cons in Hnd as [Hnotin Hnd].
    destruct (sameTargetPort removeAddr a) eqn:Ha.
    + right. exists [], a, l. split_and!; [done..|].
      simpl. intros addr Hin.
      destruct (sameTargetPort removeAddr addr) eqn:Haddr; [|done].
      apply sameTargetPort_key in Ha, Haddr.
      destruct Hnotin. rewrite <- Ha, Haddr. by apply list_elem_of_fmap_2.
    + destruct (IH Hnd) as [Hnone | (before & x & after & -> & Hx & Hrest)].
      * left. intros addr [->|Hin]%elem_of_cons; auto.
      * right. exists (a :: before), x, after. split_and!; [done..|].
        simpl. intros addr [->|Hin]%elem_of_cons; auto.
Qed.

Lemma removeRecord_single (removeAddr x : SRV) (before after : list SRV) :
  sameTargetPort removeAddr x = true ->
  (forall addr, addr ∈ before ++ after -> sameTargetPort removeAddr addr = false) ->
  removeRecord removeAddr (before ++ x :: after) = Done (before ++ after).
Proof.
  intros Hx Hrest. unfold removeRecord.
  set (p := length before). set (q := length after).
  assert (length (before ++ x :: after) = p + S q) as -> by (by rewrite length_app).
  rewrite seq_app, removeScan_app.
  rewrite removeScan_no_match.
  2:{ intros j [_ Hj]%elem_of_seq. simpl in Hj.
      destruct (lookup_lt_is_Some_2 before j) as [addr Haddr]; [done|].
      exists addr. rewrite lookup_app_l by done. split; [done|].
      apply Hrest, elem_of_app. left. by eapply list_elem_of_lookup_2. }
  simpl. unfold index at 1. simpl.
  rewrite list_lookup_middle by done. simpl. rewrite Hx.
  unfold removeAt.
  rewrite (proj2 (Nat.leb_le _ _)) by (rewrite length_app; simpl; lia).
  rewrite (proj2 (Nat.leb_le _ _)) by lia. simpl.
  replace (p + S q - (p + 1)) with q by lia.
  replace (p + S q - 1) with (p + q) by lia.
  rewrite take_app_length' by done.
  rewrite (drop_app_add' before (x :: after) p q) by done.
  replace (drop (p + 1) (before ++ x :: after)) with after.
  2:{ rewrite (cons_middle x), app_assoc.
      by rewrite drop_app_length' by (rewrite length_app; simpl; lia). }
  rewrite (firstn_all after : take q after = after).
  rewrite removeScan_no_match; simpl.
  - by rewrite app_assoc, take_app_length' by (rewrite length_app; lia).
  - intros j [Hj1 Hj2]%elem_of_seq.
    assert (length (after ++ drop q (x :: after)) = S q) as Hl.
    { rewrite length_app, length_drop. simpl. lia. }
    destruct (lookup_lt_is_Some_2 (after ++ drop q (x :: after)) (j - p)) as [addr Haddr];
      [lia|].
    exists addr. rewrite lookup_app_r by lia. split; [done|].
    apply list_elem_of_lookup_2 in Haddr.
    apply Hrest, elem_of_app. right.
    apply elem_of_app in Haddr as [?|Hin]; [done|].
    destruct q as [|q'] eqn:Hq; [lia|]. simpl in Hin.
    apply list_elem_of_lookup in Hin as [i Hi].
    rewrite lookup_drop in Hi. by eapply list_elem_of_lookup_2.
Qed.

Lemma filter_none_match (removeAddr : SRV) (l : list SRV) :
  (forall addr, addr ∈ l -> sameTargetPort removeAddr addr = false) ->
  filter (fun addr => negb (sameTargetPort removeAddr addr)) l = l.
Proof.
  induction l as [|a l IH]; intros Hno; [done|].
  assert (sameTargetPort removeAddr a = false) as Ha by (apply Hno; by left).
  rewrite filter_cons_True by (rewrite Ha; exact I).
  rewrite IH; [done|]. intros addr Hin. apply Hno. by right.
Qed.

Lemma removeRecord_distinct (removeAddr : SRV) (addresses : list SRV) :
  NoDup (map key addresses) ->
  removeRecord removeAddr addresses =
    Done (filter (fun addr => negb (sameTargetPort removeAddr addr)) addresses).
Proof.
  intros Hnd.
  destruct (NoDup_key_match removeAddr addresses Hnd)
    as [Hnone | (before & x & after & -> & Hx & Hrest)].
  - by rewrite removeRecord_absent, filter_none_match.
  - rewrite removeRecord_single by done.
    rewrite filter_app, filter_cons_False by (rewrite Hx; exact id).
    rewrite <- filter_app. by rewrite filter_none_match.
Qed.

(** With addresses that differ in target or port, the loop is the filter
    that removes every record matched by an entry of [recordsToRemove],
    and it does not panic. *)
Lemma removeRecords_distinct (recordsToRemove addresses : list SRV) :
  NoDup (map key addresses) ->
  removeRecords recordsToRemove addresses =
    Done (filter (fun addr => kept recordsToRemove addr) addresses).
Proof.
  revert addresses. induction recordsToRemove as [|r rs IH]; intros addresses Hnd; simpl.
  - f_equal. symmetry. induction addresses as [|a l IHl]; [done|].
    rewrite filter_cons_True by exact I. f_equal. apply IHl.
    by apply NoDup_cons in Hnd as [_ ?].
  - rewrite removeRecord_distinct by done. simpl.
    rewrite IH.
    + f_equal. rewrite list_filter_filter. apply list_filter_iff.
      intros addr. rewrite andb_True. tauto.
    + eapply sublist_NoDup; [exact Hnd|].
      apply (fmap_sublist key), sublist_filter.
Qed.

(** ** validateTXTResult *)

Lemma Cut_Some (s : string) (sep : ascii) (before after : string) :
  strings.Cut s sep = Some (before, after) ->
  s = (before ++ String sep after)%string /\ strings.IndexByte before sep = None.
Proof.
  revert before. induction s as [|a s IH]; intros before; simpl; [done|].
  destruct (Ascii.eqb_spec a sep) as [->|Hne].
  - by intros [= <- <-].
  - destruct (strings.Cut s sep) as [[b1 a1]|]; [|done].
    intros [= <- <-]. destruct (IH b1 eq_refl) as [-> Hb]. simpl.
    rewrite Hb. by rewrite (proj2 (Ascii.eqb_neq _ _) Hne).
Qed.

Lemma Cut_None (s : string) (sep : ascii) :
  strings.Cut s sep = None <-> strings.IndexByte s sep = None.
Proof.
  induction s as [|a s IH]; simpl; [done|].
  destruct (Ascii.eqb a sep); [done|].
  destruct IH as [IH1 IH2].
  destruct (strings.Cut s sep) as [[b1 a1]|], (strings.IndexByte s sep);
    split; intros H; try done.
  - discriminate (IH2 eq_refl).
  - discriminate (IH1 eq_refl).
Qed.

(** A token splits in two exactly when it holds an ["="]. *)
Lemma SplitN2_cases (param : string) :
  (strings.IndexByte param "=" = None /\ strings.SplitN2 param "=" = [param]) \/
  (exists key value,
     strings.SplitN2 param "=" = [key; value] /\
     param = (key ++ "=" ++ value)%string /\ strings.IndexByte key "=" = None).
Proof.
  unfold strings.SplitN2.
  destruct (strings.Cut param "=") as [[key value]|] eqn:E.
  - right. exists key, value. by apply Cut_Some in E as [-> ?].
  - left. by apply Cut_None in E.
Qed.

Lemma allowed_iff (key : string) :
  allowed key = true <-> key = "authsource" \/ key = "replicaset".
Proof.
  unfold allowed, allowedTXTOptions. simpl.
  rewrite !orb_true_iff, !String.eqb_eq. intuition discriminate.
Qed.

Lemma validateTXTParam_None (env : Env) (param : string) :
  validateTXTParam env param = None <-> goodParam env param.
Proof.
  unfold validateTXTParam, goodParam.
  destruct (SplitN2_cases param) as [[_ ->] | (key & value & -> & _ & _)].
  - split; [done|]. by intros (? & ? & ? & _).
  - destruct (allowed _) eqn:E; split; try done.
    + intros _. exists key, value. split; [done|]. by apply allowed_iff.
    + intros (k & v & [= <- <-] & Hk). apply allowed_iff in Hk. congruence.
Qed.

Lemma validateTXTParam_Some (env : Env) (param : string) (e : error) :
  validateTXTParam env param = Some e ->
  (strings.IndexByte param "=" = None /\ e = ErrInvalidTXT) \/
  (exists key value,
     strings.SplitN2 param "=" = [key; value] /\
     allowed (strings.ToLower (mapUnicodeLower env) key) = false /\
     e = ErrOptionNotAllowed key).
Proof.
  unfold validateTXTParam.
  destruct (SplitN2_cases param) as [[Hno ->] | (key & value & -> & _ & _)].
  - intros [= <-]. by left.
  - destruct (allowed _) eqn:E; [done|]. intros [= <-].
    right. by exists key, value.
Qed.

Lemma validateTXTResult_None (env : Env) (params : list string) :
  validateTXTResult env params = None <-> Forall (goodParam env) params.
Proof.
  induction params as [|p rest IH]; simpl.
  - split; [constructor | done].
  - rewrite Forall_cons, <- IH, <- validateTXTParam_None.
    destruct (validateTXTParam env p); [|tauto].
    split; [done | by intros [? _]].
Qed.

(** The error is that of the first token that is not let through. *)
Lemma validateTXTResult_first (env : Env) (before after : list string) (param : string) :
  Forall (goodParam env) before ->
  validateTXTResult env (before ++ param :: after) =
    match validateTXTParam env param with
    | Some e => Some e
    | None => validateTXTResult env after
    end.
Proof.
  induction before as [|b before IH]; intros Hgood; simpl; [done|].
  apply Forall_cons in Hgood as [Hb Hgood].
  apply validateTXTParam_None in Hb. rewrite Hb. by apply IH.
Qed.

Lemma validateTXTResult_kind (env : Env) (params : list string) (e : error) :
  validateTXTResult env params = Some e -> kindOf e = InvalidInput.
Proof.
  induction params as [|p rest IH]; simpl; [done|].
  destruct (validateTXTParam env p) as [e'|] eqn:E; [|done].
  intros [= <-].
  by apply validateTXTParam_Some in E as [[_ ->] | (? & ? & _ & _ & ->)].
Qed.

(** ** net.SplitHostPort on a host followed by a colon and a port *)

Section host_port.
Import strings.

Lemma IndexByte_app (a b : string) (c : ascii) :
  IndexByte (a ++ b) c =
    match IndexByte a c with
    | Some i => Some i
    | None => match IndexByte b c with
              | Some j => Some (String.length a + j)
              | None => None
              end
    end.
Proof.
  induction a as [|x a IH]; simpl; [destruct (IndexByte b c); reflexivity|].
  destruct (Ascii.eqb x c); [done|]. rewrite IH.
  destruct (IndexByte a c); [done|]. destruct (IndexByte b c); reflexivity.
Qed.

Lemma IndexByte_app_None (a b : string) (c : ascii) :
  IndexByte (a ++ b) c = None <-> IndexByte a c = None /\ IndexByte b c = None.
Proof.
  rewrite IndexByte_app.
  destruct (IndexByte a c), (IndexByte b c); split; try done; by intros [? ?].
Qed.

Lemma LastIndexByte_None (s : string) (c : ascii) :
  IndexByte s c = None -> LastIndexByte s c = None.
Proof.
  induction s as [|x s IH]; simpl; [done|].
  destruct (Ascii.eqb x c); [done|].
  destruct (IndexByte s c); [done|]. intros _. by rewrite IH.
Qed.

Lemma LastIndexByte_app_sep (h p : string) (c : ascii) :
  IndexByte p c = None -> LastIndexByte (h ++ String c p) c = Some (String.length h).
Proof.
  intros Hp. induction h as [|x h IH]; simpl.
  - by rewrite LastIndexByte_None, Ascii.eqb_refl.
  - by rewrite IH.
Qed.

Lemma substring_app_l (h r : string) :
  String.substring 0 (String.length h) (h ++ r) = h.
Proof.
  induction h as [|x h IH]; simpl; [by destruct r | by rewrite IH].
Qed.

Lemma substring_app_r (h r : string) (m : nat) :
  String.substring (String.length h) m (h ++ r) = String.substring 0 m r.
Proof. induction h as [|x h IH]; simpl; done. Qed.

Lemma substring_all (s : string) : String.substring 0 (String.length s) s = s.
Proof. induction s as [|x s IH]; simpl; [done | by rewrite IH]. Qed.

Lemma length_append (a b : string) :
  String.length (a ++ b) = String.length a + String.length b.
Proof. induction a as [|x a IH]; simpl; [done | by rewrite IH]. Qed.

Lemma sub_prefix (h r : string) : sub (h ++ r) 0 (String.length h) = h.
Proof.
  unfold sub. replace (String.length h - 0) with (String.length h) by lia.
  apply substring_app_l.
Qed.

Lemma from_zero (s : string) : from s 0 = s.
Proof.
  unfold from, sub, len. replace (String.length s - 0) with (String.length s) by lia.
  apply substring_all.
Qed.

Lemma from_after_sep (h p : string) (c : ascii) :
  from (h ++ String c p) (String.length h + 1) = p.
Proof.
  unfold from, sub, len. rewrite length_append. simpl.
  replace (String.length h + S (String.length p) - (String.length h + 1))
    with (String.length p) by lia.
  induction h as [|x h IH]; simpl.
  - apply substring_all.
  - apply IH.
Qed.

(** A host and a port that hold no colon and no bracket, joined by a
    colon, are split into that host and that port. *)
Lemma SplitHostPort_host_port (h p : string) :
  IndexByte h ":" = None -> IndexByte h "[" = None -> IndexByte h "]" = None ->
  IndexByte p ":" = None -> IndexByte p "[" = None -> IndexByte p "]" = None ->
  SplitHostPort (h ++ ":" ++ p) = inl (h, p).
Proof.
  intros Hh1 Hh2 Hh3 Hp1 Hp2 Hp3. unfold SplitHostPort.
  change (h ++ ":" ++ p)%string with (h ++ String ":" p)%string.
  rewrite LastIndexByte_app_sep by done.
  assert (byteIs (h ++ String ":" p) 0 "[" = false) as ->.
  { unfold byteIs. destruct h as [|x h]; simpl in *; [done|].
    by destruct (Ascii.eqb x "["). }
  rewrite sub_prefix, Hh1, from_zero, from_after_sep.
  assert (IndexByte (h ++ String ":" p) "[" = None) as ->.
  { apply IndexByte_app_None. split; [done|]. simpl. by rewrite Hp2. }
  assert (IndexByte (h ++ String ":" p) "]" = None) as ->.
  { apply IndexByte_app_None. split; [done|]. simpl. by rewrite Hp3. }
  done.
Qed.

End host_port.

(** ** The entry points *)

Lemma Split_comma_single (host : string) :
  strings.IndexByte host "," = None -> strings.Split host "," = [host].
Proof. apply Split_no_sep. Qed.

Lemma ResolveHostFromSrvRecords_single (env : Env) (d : DnsResolver) (host : string) :
  strings.IndexByte host "," = None ->
  ResolveHostFromSrvRecords env d host =
    ((res ← (fetchSeedlistFromSRV env d host).1;
      match res with
      | (_, Some err) => mret ([], Some err)
      | (parsedHosts, None) => mret (parsedHosts, None)
      end),
     (fetchSeedlistFromSRV env d host).2).
Proof.
  intros Hno. unfold ResolveHostFromSrvRecords.
  rewrite Split_comma_single by done. simpl.
  by destruct (fetchSeedlistFromSRV env d host).
Qed.

Lemma ResolveHostFromSrvRecords_several (env : Env) (d : DnsResolver) (host : string) :
  strings.IndexByte host "," <> None ->
  ResolveHostFromSrvRecords env d host = (Done ([], Some ErrOneHostname), []).
Proof.
  intros Hcomma. unfold ResolveHostFromSrvRecords.
  destruct (Nat.eqb_spec (length (strings.Split host ",")) 1) as [H1|]; [|done].
  by apply Split_single in H1.
Qed.

Lemma fetchSeedlistFromSRV_port (env : Env) (d : DnsResolver) (host : string) :
  (exists hp, SplitHostPort host = inl hp) ->
  fetchSeedlistFromSRV env d host = (Done ([], Some ErrPortNumber), []).
Proof. intros [hp Hhp]. unfold fetchSeedlistFromSRV. by rewrite Hhp. Qed.

(** The TXT entry point, by the records that are left after the step for
    Windows. *)
Lemma ResolveTXT_eval (env : Env) (d : DnsResolver) (host : string) :
  ResolveAdditionalQueryParametersFromTxtRecords env d host =
    (match recordsAfterJoin env
             match LookupTXT env host with Found records => records | Failed _ => [] end
     with
     | [] => ([], None)
     | [record] =>
         match validateTXTResult env (strings.FieldsFunc record isSeparator) with
         | Some err => ([], Some err)
         | None => (strings.FieldsFunc record isSeparator, None)
         end
     | _ :: _ :: _ => ([], Some ErrMultipleTXT)
     end,
     [QueryTXT host]).
Proof.
  unfold ResolveAdditionalQueryParametersFromTxtRecords.
  destruct (recordsAfterJoin _ _) as [|r0 [|r1 rest]]; simpl; [done| |done].
  by destruct (validateTXTResult _ _).
Qed.

Lemma TrimSuffix_app (s : string) (c : ascii) :
  strings.TrimSuffix (s ++ String c "") c = s.
Proof.
  induction s as [|a s IH]; simpl.
  - by rewrite Ascii.eqb_refl.
  - rewrite IH. by destruct s.
Qed.

Lemma TrimSuffix_id (s : string) (c : ascii) :
  (forall s', s <> (s' ++ String c "")%string) -> strings.TrimSuffix s c = s.
Proof.
  induction s as [|a s IH]; intros Hne; simpl; [done|].
  destruct s as [|b s].
  - destruct (Ascii.eqb_spec a c) as [->|]; [|done]. by destruct (Hne "").
  - rewrite IH; [done|]. intros s' Hs'. apply (Hne (String a s')). simpl. by rewrite Hs'.
Qed.

(** Labels that do not end with the labels of a domain are not those of a
    subdomain of it. *)
Lemma not_suffix_not_subdomain (name domain : list string) :
  ~ domain `suffix_of` name -> ~ subdomain name domain.
Proof. intros Hsuffix (front & _ & ->). apply Hsuffix. by exists front. Qed.

(** On Windows one record is left, the join of all; elsewhere the records
    are left as they are. *)
Lemma recordsAfterJoin_windows (env : Env) (records : list string) :
  GOOS env = "windows" -> recordsAfterJoin env records = [strings.Join records].
Proof. intros H. unfold recordsAfterJoin. by rewrite H. Qed.

Lemma recordsAfterJoin_other (env : Env) (records : list string) :
  GOOS env <> "windows" -> recordsAfterJoin env records = records.
Proof.
  intros H. unfold recordsAfterJoin.
  by destruct (String.eqb_spec (GOOS env) "windows").
Qed.

(** ** The properties of the specification *)

(** Claim C1. A record whose target is not a subdomain of the parent of the
    discovery host is rejected with an error of the kind SecurityValidation:
    [validateSRVResult] returns one of its two errors for it, and when such
    a record is in the working set of [fetchSeedlistFromSRV] (the host has
    no port, the lookup has answered, the removal loop has ended), the call
    returns no seed and such an error, and so does
    [ResolveHostFromSrvRecords] for a host without a comma. The target is
    taken without its trailing dot, as the code validates it. [subdomain]
    asks for a label in front of the parent; a target whose labels do not
    end with those of the parent is no subdomain either
    ([not_suffix_not_subdomain]), so both readings of the word are covered. *)
Theorem foreign_target_rejected :
  (forall record host : string,
     ~ subdomain (labels record) (parent host) ->
     exists e, validateSRVResult record host = Done (Some e) /\
               kindOf e = SecurityValidation) /\
  (forall (env : Env) (d : DnsResolver) (host cname : string) (addrs ws : list SRV) (r : SRV),
     (exists why, SplitHostPort host = inr why) ->
     LookupSRV env "mongodb" "tcp" host = Found (cname, addrs) ->
     removeRecords (RecordsToRemove d) (addrs ++ RecordsToAdd d) = Done ws ->
     r ∈ ws ->
     ~ subdomain (labels (trimmed r)) (parent host) ->
     exists e,
       (fetchSeedlistFromSRV env d host).1 = Done ([], Some e) /\
       kindOf e = SecurityValidation /\
       (strings.IndexByte host "," = None ->
        (ResolveHostFromSrvRecords env d host).1 = Done ([], Some e))).
Proof.
  assert (forall record host, ~ subdomain (labels record) (parent host) ->
            suffixError record host <> None) as Hbad.
  { intros record host Hsub Hnone.
    by apply suffixError_None_subdomain in Hnone as [_ ?]. }
  split.
  - intros record host Hsub. rewrite validateSRVResult_eval.
    destruct (suffixError record host) as [e|] eqn:E; [|by destruct (Hbad _ _ Hsub)].
    exists e. split; [done|]. by apply suffixError_kind in E as [_ ?].
  - intros env d host cname addrs ws r Hport Hlookup Hremove Hin Hsub.
    destruct (firstError_invalid host ws r Hin (Hbad _ _ Hsub)) as (e & He & Hkind).
    exists e.
    assert ((fetchSeedlistFromSRV env d host).1 = Done ([], Some e)) as Hfetch.
    { rewrite (fetchSeedlistFromSRV_found env d host cname addrs ws) by done.
      simpl. by rewrite He. }
    split_and!; [done..|].
    intros Hcomma. rewrite ResolveHostFromSrvRecords_single by done.
    simpl. by rewrite Hfetch.
Qed.

Lemma foreign_target_rejected_witness :
  (exists e, validateSRVResult "node.evil.com" "cluster0.example.com" = Done (Some e) /\
             kindOf e = SecurityValidation) /\
  (exists e,
     (fetchSeedlistFromSRV (resolver [srv "node.evil.com." 27017] (Found []) "linux")
        noTestRecords "cluster0.example.com").1 = Done ([], Some e) /\
     kindOf e = SecurityValidation /\
     (strings.IndexByte "cluster0.example.com" "," = None ->
      (ResolveHostFromSrvRecords (resolver [srv "node.evil.com." 27017] (Found []) "linux")
         noTestRecords "cluster0.example.com").1 = Done ([], Some e))).
Proof.
  assert (~ subdomain (labels "node.evil.com") (parent "cluster0.example.com")) as Hsub.
  { intros (front & _ & Heq). apply (f_equal (fun l => reverse l !! 1)) in Heq.
    rewrite reverse_app in Heq. vm_compute in Heq. discriminate. }
  split.
  - apply (proj1 foreign_target_rejected). exact Hsub.
  - apply (proj2 foreign_target_rejected (resolver [srv "node.evil.com." 27017] (Found []) "linux")
             noTestRecords "cluster0.example.com" ""
             [srv "node.evil.com." 27017] [srv "node.evil.com." 27017]
             (srv "node.evil.com." 27017)).
    + eexists. vm_compute. reflexivity.
    + reflexivity.
    + reflexivity.
    + apply list_elem_of_here.
    + exact Hsub.
Defined.

(** Claim C2. [validateSRVResult] always returns (its slices and indices
    are in range), and it returns [nil] exactly when the record has at least
    2 labels, at least as many labels as the host, and its last
    [len(hostLabels)-1] labels are equal, byte for byte, to the labels of
    the host without the first; in every other case it returns an error, of
    the kind SecurityValidation. *)
Theorem validateSRVResult_accepts_iff (recordFromSRV inputHostName : string) :
  exists res,
    validateSRVResult recordFromSRV inputHostName = Done res /\
    (res = None <->
       2 <= length (labels recordFromSRV) /\
       length (labels inputHostName) <= length (labels recordFromSRV) /\
       drop (length (labels recordFromSRV) - (length (labels inputHostName) - 1))
            (labels recordFromSRV)
         = drop 1 (labels inputHostName)) /\
    (forall e, res = Some e ->
       (e = ErrTwoLabels \/ e = ErrDomainSuffix) /\ kindOf e = SecurityValidation).
Proof.
  exists (suffixError recordFromSRV inputHostName).
  split_and!.
  - apply validateSRVResult_eval.
  - apply suffixError_None_iff.
  - apply suffixError_kind.
Qed.

(** Claim C10. For a discovery host without a dot the parent is the empty
    list of labels, and [validateSRVResult] accepts every record of two
    labels or more, whatever they are. *)
Theorem single_label_host_accepts_all (recordFromSRV inputHostName : string) :
  strings.IndexByte inputHostName "." = None ->
  2 <= length (labels recordFromSRV) ->
  labels inputHostName = [inputHostName] /\
  parent inputHostName = [] /\
  validateSRVResult recordFromSRV inputHostName = Done None.
Proof.
  intros Hdot H2.
  assert (labels inputHostName = [inputHostName]) as Hl by (by apply Split_no_sep).
  unfold parent. rewrite Hl. split_and!; [done..|].
  rewrite validateSRVResult_eval. f_equal.
  apply suffixError_None_iff. rewrite Hl. simpl.
  split_and!; [done | lia |].
  rewrite Nat.sub_0_r. apply drop_all.
Qed.

Lemma single_label_host_accepts_all_witness :
  labels "localhost" = ["localhost"] /\
  parent "localhost" = [] /\
  validateSRVResult "node.evil.com" "localhost" = Done None.
Proof.
  apply (single_label_host_accepts_all "node.evil.com" "localhost").
  - reflexivity.
  - vm_compute. lia.
Defined.

(** Claim C3, as stated, fails: the error returned for a record that fails
    the validation is a fixed message. For the host
    ["cluster0.example.com"] and the only record ["node.evil.com"] the call
    returns the error ["Domain suffix from SRV record not matched input
    domain"], in which neither name occurs. *)
Lemma invalid_record_is_not_identified : ~ invalid_record_is_identified.
Proof.
  intros Hclaim.
  destruct (Hclaim (resolver [srv "node.evil.com" 27017] (Found []) "linux")
              noTestRecords "cluster0.example.com" ""
              [srv "node.evil.com" 27017] [] [] (srv "node.evil.com" 27017))
    as (e & Hfetch & _ & Hrecord & _).
  - eexists. vm_compute. reflexivity.
  - reflexivity.
  - reflexivity.
  - constructor.
  - vm_compute. discriminate.
  - vm_compute in Hfetch. injection Hfetch as <-.
    vm_compute in Hrecord. discriminate.
Qed.

(** Claim C3, amended. When a record of the working set fails the
    validation, [fetchSeedlistFromSRV] returns no seed at all (a [nil] list,
    not the seeds formatted so far) and the error of the first record that
    fails; that error is of the kind SecurityValidation and its message is
    one of two fixed texts, which name neither the record nor the host. The
    entry point returns the same for a host without a comma. *)
Theorem invalid_record_fails_whole_call (env : Env) (d : DnsResolver) (host cname : string)
    (addrs before after : list SRV) (r : SRV) :
  (exists why, SplitHostPort host = inr why) ->
  LookupSRV env "mongodb" "tcp" host = Found (cname, addrs) ->
  removeRecords (RecordsToRemove d) (addrs ++ RecordsToAdd d) = Done (before ++ r :: after) ->
  Forall (fun r' => validateSRVResult (trimmed r') host = Done None) before ->
  validateSRVResult (trimmed r) host <> Done None ->
  exists e,
    validateSRVResult (trimmed r) host = Done (Some e) /\
    fetchSeedlistFromSRV env d host = (Done ([], Some e), [QuerySRV "mongodb" "tcp" host]) /\
    kindOf e = SecurityValidation /\
    (Error e = "DNS name must contain at least 2 labels" \/
     Error e = "Domain suffix from SRV record not matched input domain") /\
    (strings.IndexByte host "," = None ->
     ResolveHostFromSrvRecords env d host =
       (Done ([], Some e), [QuerySRV "mongodb" "tcp" host])).
Proof.
  intros Hport Hlookup Hremove Hbefore Hr.
  rewrite validateSRVResult_eval in Hr.
  destruct (suffixError (trimmed r) host) as [e|] eqn:E; [|done].
  exists e.
  assert (firstError host (before ++ r :: after) = Some e) as Hfirst.
  { apply firstError_Some. exists before, r, after. split_and!; [done| |done].
    eapply Forall_impl; [exact Hbefore|]. intros r' Hr'. simpl in Hr'.
    rewrite validateSRVResult_eval in Hr'. by injection Hr'. }
  assert (fetchSeedlistFromSRV env d host =
            (Done ([], Some e), [QuerySRV "mongodb" "tcp" host])) as Hfetch.
  { rewrite (fetchSeedlistFromSRV_found env d host cname addrs _ Hport Hlookup Hremove).
    by rewrite Hfirst. }
  pose proof (suffixError_kind _ _ _ E) as [He Hkind].
  split_and!; [by rewrite validateSRVResult_eval, E | done | done | |].
  - destruct He as [-> | ->]; [by left | by right].
  - intros Hcomma. rewrite ResolveHostFromSrvRecords_single by done.
    by rewrite Hfetch.
Qed.

Lemma invalid_record_fails_whole_call_witness :
  exists e,
    validateSRVResult (trimmed (srv "node.evil.com." 27018)) "cluster0.example.com"
      = Done (Some e) /\
    fetchSeedlistFromSRV
      (resolver [srv "a.example.com." 27017; srv "node.evil.com." 27018] (Found []) "linux")
      noTestRecords "cluster0.example.com"
      = (Done ([], Some e), [QuerySRV "mongodb" "tcp" "cluster0.example.com"]) /\
    kindOf e = SecurityValidation /\
    (Error e = "DNS name must contain at least 2 labels" \/
     Error e = "Domain suffix from SRV record not matched input domain") /\
    (strings.IndexByte "cluster0.example.com" "," = None ->
     ResolveHostFromSrvRecords
       (resolver [srv "a.example.com." 27017; srv "node.evil.com." 27018] (Found []) "linux")
       noTestRecords "cluster0.example.com"
       = (Done ([], Some e), [QuerySRV "mongodb" "tcp" "cluster0.example.com"])).
Proof.
  apply (invalid_record_fails_whole_call
           (resolver [srv "a.example.com." 27017; srv "node.evil.com." 27018] (Found []) "linux")
           noTestRecords "cluster0.example.com" ""
           [srv "a.example.com." 27017; srv "node.evil.com." 27018]
           [srv "a.example.com." 27017] [] (srv "node.evil.com." 27018)).
  - eexists. vm_compute. reflexivity.
  - reflexivity.
  - reflexivity.
  - repeat constructor.
  - vm_compute. discriminate.
Defined.

(** Claim C4, on the code. The loop removes records from the slice it is
    ranging over. With two addresses of the same target and port, one from
    the lookup and one from [RecordsToAdd], removing that target and port
    makes [addresses[j+1:]] panic; with two such addresses followed by a
    third, the second of the two stays in the seed list. *)
Theorem removal_of_equal_records :
  fetchSeedlistFromSRV
    (resolver [srv "a.example.com." 27017] (Found []) "linux")
    (testRecords [srv "a.example.com." 27017] [srv "a.example.com." 27017])
    "cluster0.example.com"
    = (Panic, [QuerySRV "mongodb" "tcp" "cluster0.example.com"]) /\
  fetchSeedlistFromSRV
    (resolver [srv "a.example.com." 27017] (Found []) "linux")
    (testRecords [srv "a.example.com." 27017; srv "b.example.com." 27018]
                 [srv "a.example.com." 27017])
    "cluster0.example.com"
    = (Done (["a.example.com:27017"; "b.example.com:27018"], None),
       [QuerySRV "mongodb" "tcp" "cluster0.example.com"]).
Proof. split; vm_compute; reflexivity. Qed.

(** Claim C5. When the TXT lookup fails, or answers with no record,
    [ResolveAdditionalQueryParametersFromTxtRecords] returns an empty list
    of options and no error, on every platform; and whatever the lookup
    does, the error of the call, if there is one, is never the error of the
    resolver: it is of the kind InvalidInput. *)
Theorem txt_lookup_failure_gives_no_option (env : Env) (d : DnsResolver) (host : string) :
  ((exists err, LookupTXT env host = Failed err) \/ LookupTXT env host = Found [] ->
   ResolveAdditionalQueryParametersFromTxtRecords env d host
     = (([], None), [QueryTXT host])) /\
  (forall e, (ResolveAdditionalQueryParametersFromTxtRecords env d host).1.2 = Some e ->
     kindOf e = InvalidInput /\ forall err, e <> ErrLookupSRV err).
Proof.
  rewrite ResolveTXT_eval. split.
  - intros Hlookup.
    assert (match LookupTXT env host with Found records => records | Failed _ => [] end = [])
      as -> by (by destruct Hlookup as [[err ->] | ->]).
    unfold recordsAfterJoin. by destruct (String.eqb (GOOS env) "windows").
  - assert (forall e, kindOf e = InvalidInput ->
              kindOf e = InvalidInput /\ forall err, e <> ErrLookupSRV err) as Hkind
      by (intros e H; split; [done | by intros err ->]).
    intros e. simpl.
    destruct (recordsAfterJoin _ _) as [|r0 [|r1 rest]]; simpl; [done | |].
    + destruct (validateTXTResult env _) as [e'|] eqn:E; simpl; [|done].
      intros [= <-]. apply Hkind. by eapply validateTXTResult_kind.
    + intros [= <-]. by apply Hkind.
Qed.

Lemma txt_lookup_failure_gives_no_option_witness :
  ResolveAdditionalQueryParametersFromTxtRecords
    (resolver [] (Failed "no such host") "windows") noTestRecords "cluster0.example.com"
    = (([], None), [QueryTXT "cluster0.example.com"]).
Proof.
  apply (proj1 (txt_lookup_failure_gives_no_option
                  (resolver [] (Failed "no such host") "windows") noTestRecords
                  "cluster0.example.com")).
  left. eexists. reflexivity.
Defined.

(** Claim C6. When more than one TXT record is left after the step for
    Windows, the call returns no option and the error ["multiple records
    from TXT not supported"], of the kind InvalidInput, whatever the
    records hold: the result does not depend on them, so nothing of their
    parsing or validation reaches it. *)
Theorem several_txt_records_rejected (env : Env) (d : DnsResolver) (host : string)
    (records : list string) :
  LookupTXT env host = Found records ->
  1 < length (recordsAfterJoin env records) ->
  ResolveAdditionalQueryParametersFromTxtRecords env d host
    = (([], Some ErrMultipleTXT), [QueryTXT host]) /\
  kindOf ErrMultipleTXT = InvalidInput /\
  Error ErrMultipleTXT = "multiple records from TXT not supported".
Proof.
  intros Hlookup Hlen. rewrite ResolveTXT_eval, Hlookup.
  destruct (recordsAfterJoin env records) as [|r0 [|r1 rest]]; simpl in Hlen; [lia..|done].
Qed.

Lemma several_txt_records_rejected_witness :
  ResolveAdditionalQueryParametersFromTxtRecords
    (resolver [] (Found ["authSource=admin"; "replicaSet=rs0"]) "linux") noTestRecords
    "cluster0.example.com"
    = (([], Some ErrMultipleTXT), [QueryTXT "cluster0.example.com"]) /\
  kindOf ErrMultipleTXT = InvalidInput /\
  Error ErrMultipleTXT = "multiple records from TXT not supported".
Proof.
  apply (several_txt_records_rejected
           (resolver [] (Found ["authSource=admin"; "replicaSet=rs0"]) "linux") noTestRecords
           "cluster0.example.com" ["authSource=admin"; "replicaSet=rs0"]).
  - reflexivity.
  - vm_compute. lia.
Defined.

(** Claim C7. [validateTXTResult] returns [nil] exactly when every token
    has an ["="] and its key (the text before the first ["="]), lowered, is
    ["authsource"] or ["replicaset"]. Otherwise the first token that fails
    decides the error: ["Invalid TXT record"] when it has no ["="], and a
    message with the key as it was written when the key is not allowed;
    both are of the kind InvalidInput. When the one TXT record passes, the
    entry point returns its tokens, split at [";"] and ["&"], as they are. *)
Theorem txt_options_allow_list (env : Env) (paramsFromTXT : list string) :
  (validateTXTResult env paramsFromTXT = None <-> Forall (goodParam env) paramsFromTXT) /\
  (forall (before after : list string) (param : string),
     paramsFromTXT = before ++ param :: after ->
     Forall (goodParam env) before ->
     (strings.IndexByte param "=" = None ->
      validateTXTResult env paramsFromTXT = Some ErrInvalidTXT /\
      Error ErrInvalidTXT = "Invalid TXT record" /\
      kindOf ErrInvalidTXT = InvalidInput) /\
     (forall key value : string,
        strings.SplitN2 param "=" = [key; value] ->
        strings.ToLower (mapUnicodeLower env) key <> "authsource" ->
        strings.ToLower (mapUnicodeLower env) key <> "replicaset" ->
        validateTXTResult env paramsFromTXT = Some (ErrOptionNotAllowed key) /\
        Error (ErrOptionNotAllowed key)
          = ("Cannot specify option '" ++ key ++ "' in TXT record")%string /\
        kindOf (ErrOptionNotAllowed key) = InvalidInput)) /\
  (forall (d : DnsResolver) (host record : string),
     recordsAfterJoin env
       match LookupTXT env host with Found records => records | Failed _ => [] end
       = [record] ->
     paramsFromTXT = strings.FieldsFunc record isSeparator ->
     validateTXTResult env paramsFromTXT = None ->
     ResolveAdditionalQueryParametersFromTxtRecords env d host
       = ((paramsFromTXT, None), [QueryTXT host])).
Proof.
  split_and!.
  - apply validateTXTResult_None.
  - intros before after param -> Hbefore. split.
    + intros Hno. rewrite validateTXTResult_first by done.
      unfold validateTXTParam.
      destruct (SplitN2_cases param) as [[_ ->] | (k & v & _ & -> & _)]; [done|].
      rewrite IndexByte_app_None in Hno. destruct Hno as [_ Hno].
      simpl in Hno. done.
    + intros key value Hsplit Hauth Hrepl.
      rewrite validateTXTResult_first by done.
      unfold validateTXTParam. rewrite Hsplit.
      destruct (allowed _) eqn:E; [|done].
      apply allowed_iff in E as [? | ?]; done.
  - intros d host record Hrecords -> Hvalid.
    by rewrite ResolveTXT_eval, Hrecords, Hvalid.
Qed.

Lemma txt_options_allow_list_witness :
  validateTXTResult (resolver [] (Found ["authSource=admin&ssl=true"]) "linux")
    ["authSource=admin"; "ssl=true"] = Some (ErrOptionNotAllowed "ssl") /\
  Error (ErrOptionNotAllowed "ssl") = "Cannot specify option 'ssl' in TXT record" /\
  kindOf (ErrOptionNotAllowed "ssl") = InvalidInput.
Proof.
  apply (proj2 (proj1 (proj2 (txt_options_allow_list
           (resolver [] (Found ["authSource=admin&ssl=true"]) "linux")
           ["authSource=admin"; "ssl=true"]))
           ["authSource=admin"] [] "ssl=true" eq_refl
           ltac:(repeat constructor; exists "authSource", "admin"; split; [reflexivity | by left]))
           "ssl" "true").
  - reflexivity.
  - vm_compute. discriminate.
  - vm_compute. discriminate.
Defined.

(** Claim C8. [ResolveHostFromSrvRecords] returns an error of the kind
    InvalidInput, and sends no query to the resolver, when the host holds a
    comma (the error ["URI with SRV must include one and only one
    hostname"]) and when the host has a port, that is when
    [net.SplitHostPort] splits it (the error ["URI with srv must not
    include a port number"], returned by [fetchSeedlistFromSRV]); a host
    and a port without colon, bracket or comma, joined by a colon, are such
    a host. *)
Theorem host_list_or_port_rejected (env : Env) (d : DnsResolver) (host : string) :
  (strings.IndexByte host "," <> None ->
   ResolveHostFromSrvRecords env d host = (Done ([], Some ErrOneHostname), []) /\
   kindOf ErrOneHostname = InvalidInput /\
   strings.Contains (Error ErrOneHostname) "must include one and only one hostname" = true) /\
  ((exists hp, SplitHostPort host = inl hp) ->
   fetchSeedlistFromSRV env d host = (Done ([], Some ErrPortNumber), []) /\
   kindOf ErrPortNumber = InvalidInput /\
   (exists e, ResolveHostFromSrvRecords env d host = (Done ([], Some e), []) /\
              kindOf e = InvalidInput) /\
   (strings.IndexByte host "," = None ->
    ResolveHostFromSrvRecords env d host = (Done ([], Some ErrPortNumber), []))) /\
  (forall h p : string,
     host = (h ++ ":" ++ p)%string ->
     strings.IndexByte h ":" = None -> strings.IndexByte h "[" = None ->
     strings.IndexByte h "]" = None -> strings.IndexByte h "," = None ->
     strings.IndexByte p ":" = None -> strings.IndexByte p "[" = None ->
     strings.IndexByte p "]" = None -> strings.IndexByte p "," = None ->
     ResolveHostFromSrvRecords env d host = (Done ([], Some ErrPortNumber), [])).
Proof.
  assert (strings.IndexByte host "," = None -> (exists hp, SplitHostPort host = inl hp) ->
          ResolveHostFromSrvRecords env d host = (Done ([], Some ErrPortNumber), [])) as Hport.
  { intros Hcomma Hsplit. rewrite ResolveHostFromSrvRecords_single by done.
    by rewrite fetchSeedlistFromSRV_port. }
  split_and!.
  - intros Hcomma. split_and!; [|done|by vm_compute].
    by apply ResolveHostFromSrvRecords_several.
  - intros Hsplit. split_and!; [by apply fetchSeedlistFromSRV_port | done | | by auto].
    destruct (strings.IndexByte host ",") as [i|] eqn:E.
    + exists ErrOneHostname. split; [|done].
      apply ResolveHostFromSrvRecords_several. by rewrite E.
    + exists ErrPortNumber. split; [|done]. by apply Hport.
  - intros h p -> Hh1 Hh2 Hh3 Hh4 Hp1 Hp2 Hp3 Hp4. apply Hport.
    + apply IndexByte_app_None. split; [done|].
      apply (IndexByte_app_None ":" p). by split.
    + exists (h, p). by apply SplitHostPort_host_port.
Qed.

Lemma host_list_or_port_rejected_witness :
  ResolveHostFromSrvRecords (resolver [srv "a.example.com." 27017] (Found []) "linux")
    noTestRecords "a.example.com,b.example.com" = (Done ([], Some ErrOneHostname), []) /\
  ResolveHostFromSrvRecords (resolver [srv "a.example.com." 27017] (Found []) "linux")
    noTestRecords "example.com:27017" = (Done ([], Some ErrPortNumber), []).
Proof.
  split.
  - apply (proj1 (host_list_or_port_rejected
                    (resolver [srv "a.example.com." 27017] (Found []) "linux")
                    noTestRecords "a.example.com,b.example.com")).
    vm_compute. discriminate.
  - apply (proj2 (proj2 (host_list_or_port_rejected
                    (resolver [srv "a.example.com." 27017] (Found []) "linux")
                    noTestRecords "example.com:27017")) "example.com" "27017");
      reflexivity.
Defined.

(** Claim C9. [fetchSeedlistFromSRV] succeeds exactly when the host has no
    port, the lookup answers, the removal loop ends, and every record left
    passes the validation of its target without one trailing dot; the list
    returned is then the seeds ["target:port"] of those records, target
    without that dot, in the order of the records left by the additions
    and removals, which keep the order of the answer followed by
    [RecordsToAdd]. Only one dot is taken from the end of a target. *)
Theorem seeds_follow_records (env : Env) (d : DnsResolver) (host : string)
    (parsedHosts : list string) :
  ((fetchSeedlistFromSRV env d host).1 = Done (parsedHosts, None) <->
   exists (cname : string) (addrs ws : list SRV),
     (exists why, SplitHostPort host = inr why) /\
     LookupSRV env "mongodb" "tcp" host = Found (cname, addrs) /\
     removeRecords (RecordsToRemove d) (addrs ++ RecordsToAdd d) = Done ws /\
     ws `sublist_of` addrs ++ RecordsToAdd d /\
     Forall (fun r => validateSRVResult (strings.TrimSuffix (Target r) ".") host = Done None) ws /\
     parsedHosts =
       map (fun r => (strings.TrimSuffix (Target r) "." ++ ":" ++ fmt.decimal (Port r))%string) ws) /\
  (forall target : string, strings.TrimSuffix (target ++ ".") "." = target) /\
  (forall target : string,
     (forall t, target <> (t ++ ".")%string) -> strings.TrimSuffix target "." = target).
Proof.
  split_and!; [|intros; apply TrimSuffix_app|intros; by apply TrimSuffix_id].
  split.
  - unfold fetchSeedlistFromSRV.
    destruct (SplitHostPort host) as [hp|why] eqn:Hsplit; [done|].
    destruct (LookupSRV env "mongodb" "tcp" host) as [[cname addrs]|err] eqn:Hlookup;
      [|done].
    simpl.
    destruct (removeRecords _ _) as [ws|] eqn:Hremove; simpl; [|done].
    rewrite formatSeeds_fresh.
    destruct (firstError host ws) eqn:Hfirst; [done|].
    intros [= <-]. exists cname, addrs, ws.
    split_and!; [by exists why | done | done | by eapply removeRecords_sublist | | done].
    apply firstError_None in Hfirst.
    eapply Forall_impl; [exact Hfirst|]. intros r Hr. simpl in Hr.
    fold (trimmed r). by rewrite validateSRVResult_eval, Hr.
  - intros (cname & addrs & ws & Hsplit & Hlookup & Hremove & _ & Hvalid & ->).
    rewrite (fetchSeedlistFromSRV_found env d host cname addrs ws) by done.
    assert (firstError host ws = None) as ->; [|done].
    apply firstError_None.
    eapply Forall_impl; [exact Hvalid|]. intros r Hr. simpl in Hr.
    fold (trimmed r) in Hr. rewrite validateSRVResult_eval in Hr. by injection Hr.
Qed.

Lemma seeds_follow_records_witness :
  (fetchSeedlistFromSRV
     (resolver [srv "b.example.com." 27018; srv "a.example.com." 27017] (Found []) "linux")
     (testRecords [srv "c.example.com" 27019] [srv "a.example.com." 27017])
     "cluster0.example.com").1
  = Done (["b.example.com:27018"; "c.example.com:27019"], None).
Proof.
  apply (proj1 (seeds_follow_records
           (resolver [srv "b.example.com." 27018; srv "a.example.com." 27017] (Found []) "linux")
           (testRecords [srv "c.example.com" 27019] [srv "a.example.com." 27017])
           "cluster0.example.com" ["b.example.com:27018"; "c.example.com:27019"])).
  exists "", [srv "b.example.com." 27018; srv "a.example.com." 27017],
    [srv "b.example.com." 27018; srv "c.example.com" 27019].
  split_and!.
  - eexists. vm_compute. reflexivity.
  - reflexivity.
  - reflexivity.
  - simpl. apply sublist_skip, sublist_cons, sublist_skip, sublist_nil.
  - repeat constructor.
  - reflexivity.
Defined.

(** ** Examples *)

Example Split_host :
  strings.Split "cluster0.example.com" "." = ["cluster0"; "example"; "com"].
Proof. reflexivity. Qed.

Example Split_empty : strings.Split "" "." = [""].
Proof. reflexivity. Qed.

Example Split_trailing_dot : strings.Split "a.b." "." = ["a"; "b"; ""].
Proof. reflexivity. Qed.

Example FieldsFunc_runs : strings.FieldsFunc ";a=1&&b=2;" isSeparator = ["a=1"; "b=2"].
Proof. reflexivity. Qed.

Example SplitN2_first_sep : strings.SplitN2 "k=v=w" "=" = ["k"; "v=w"].
Proof. reflexivity. Qed.

Example TrimSuffix_one_dot : strings.TrimSuffix "a.b.." "." = "a.b.".
Proof. reflexivity. Qed.

Example SplitHostPort_brackets : SplitHostPort "[::1]:27017" = inl ("::1", "27017").
Proof. reflexivity. Qed.

Example SplitHostPort_colons : SplitHostPort "a:b:27017" = inr tooManyColons.
Proof. reflexivity. Qed.

Example same_parent_accepted :
  validateSRVResult "x.b.c" "a.b.c" = Done None /\
  validateSRVResult "y.b.c" "a.b.c" = Done None.
Proof. split; reflexivity. Qed.

Example parent_itself_rejected : validateSRVResult "b.c" "a.b.c" = Done (Some ErrDomainSuffix).
Proof. reflexivity. Qed.

Example labels_compared_by_byte :
  validateSRVResult "x.B.c" "a.b.c" = Done (Some ErrDomainSuffix).
Proof. reflexivity. Qed.

Example one_label_rejected :
  validateSRVResult (strings.TrimSuffix "localhost" ".") "cluster0.example.com"
    = Done (Some ErrTwoLabels) /\
  validateSRVResult (strings.TrimSuffix "localhost." ".") "cluster0.example.com"
    = Done (Some ErrTwoLabels).
Proof. split; reflexivity. Qed.

Example added_record_is_validated :
  fetchSeedlistFromSRV (resolver [srv "a.example.com." 27017] (Found []) "linux")
    (testRecords [srv "node.evil.com." 27017] []) "cluster0.example.com"
  = (Done ([], Some ErrDomainSuffix), [QuerySRV "mongodb" "tcp" "cluster0.example.com"]).
Proof. vm_compute. reflexivity. Qed.

Example removal_of_one_record :
  removeRecords [srv "a.example.com." 27017; srv "z.example.com." 1]
    [srv "b.example.com." 27018; srv "a.example.com." 27017; srv "c.example.com." 27019]
  = Done [srv "b.example.com." 27018; srv "c.example.com." 27019].
Proof. vm_compute. reflexivity. Qed.

Example txt_two_options :
  ResolveAdditionalQueryParametersFromTxtRecords
    (resolver [] (Found ["authSource=admin&replicaSet=rs0"]) "linux") noTestRecords "h"
  = ((["authSource=admin"; "replicaSet=rs0"], None), [QueryTXT "h"]).
Proof. vm_compute. reflexivity. Qed.

Example txt_ssl_rejected :
  ResolveAdditionalQueryParametersFromTxtRecords
    (resolver [] (Found ["ssl=true"]) "linux") noTestRecords "h"
  = (([], Some (ErrOptionNotAllowed "ssl")), [QueryTXT "h"]).
Proof. vm_compute. reflexivity. Qed.

Example txt_key_case_kept :
  ResolveAdditionalQueryParametersFromTxtRecords
    (resolver [] (Found ["SSL=true"]) "linux") noTestRecords "h"
  = (([], Some (ErrOptionNotAllowed "SSL")), [QueryTXT "h"]).
Proof. vm_compute. reflexivity. Qed.

Example txt_joined_on_windows :
  ResolveAdditionalQueryParametersFromTxtRecords
    (resolver [] (Found ["authSource=a"; "&replicaSet=b"]) "windows") noTestRecords "h"
  = ((["authSource=a"; "replicaSet=b"], None), [QueryTXT "h"]).
Proof. vm_compute. reflexivity. Qed.


(** ** Further properties *)

(** *** The removal loop, exactly *)

(** Places at or behind the end of the slice that hold a matching record:
    the first of them makes [addresses[j+1:]] panic. *)
Lemma removeScan_stale_match (removeAddr addr : SRV) (j : nat) (js : list nat)
    (array : list SRV) (len : nat) :
  len <= j -> array !! j = Some addr -> sameTargetPort removeAddr addr = true ->
  removeScan removeAddr (j :: js) (array, len) = Panic.
Proof.
  intros Hj Haddr Hmatch. simpl. unfold index. rewrite Haddr. simpl. rewrite Hmatch.
  unfold removeAt.
  replace (j + 1 <=? len)%nat with false by (symmetry; apply Nat.leb_gt; lia).
  by rewrite andb_false_r.
Qed.

(** The scan from the place behind [pre], over the records [todo] still to
    be read and [k] places behind the slice, all holding the last record
    [lastAddr] (one for each record removed so far). *)
Lemma removeScan_live (removeAddr lastAddr : SRV) (n : nat) :
  forall (todo pre : list SRV) (k : nat),
    length todo <= n ->
    (todo <> [] -> last todo = Some lastAddr) ->
    (s ← removeScan removeAddr (seq (length pre) (length todo + k))
           (pre ++ todo ++ replicate k lastAddr, length pre + length todo);
     mret (take s.2 s.1))
    = if sameTargetPort removeAddr lastAddr
         && ((0 <? k)%nat || existsb (sameTargetPort removeAddr) (removelast todo))
      then Panic
      else Done (pre ++ removeSkipping removeAddr todo).
Proof.
  induction n as [|n IH]; intros todo pre k Hn Hlast.
  - destruct todo as [|a rest]; [|simpl in Hn; lia].
    simpl. rewrite orb_false_r, !Nat.add_0_r, app_nil_r.
    destruct (sameTargetPort removeAddr lastAddr) eqn:HL; simpl.
    + destruct k as [|k]; simpl.
      * by rewrite app_nil_r, firstn_all.
      * unfold index. rewrite lookup_app_r by done.
        rewrite Nat.sub_diag. simpl. rewrite HL. unfold removeAt.
        replace (length pre + 1 <=? length pre)%nat with false
          by (symmetry; apply Nat.leb_gt; lia).
        by rewrite andb_false_r.
    + rewrite removeScan_no_match; simpl.
      * by rewrite take_app_length.
      * intros j [Hj1 Hj2]%elem_of_seq. exists lastAddr. split; [|done].
        rewrite lookup_app_r by done. apply lookup_replicate_2. lia.
  - destruct todo as [|a rest].
    { apply (IH [] pre k); [simpl; lia | done]. }
    simpl length. rewrite Nat.add_succ_l. simpl seq. simpl removeScan.
    unfold index at 1. simpl fst.
    rewrite (list_lookup_middle pre (rest ++ replicate k lastAddr) a) by done.
    simpl.
    destruct (sameTargetPort removeAddr a) eqn:Ha.
    + (* the record at [j] is removed *)
      unfold removeAt.
      rewrite (proj2 (Nat.leb_le _ _)) by (rewrite length_app; simpl; lia).
      rewrite (proj2 (Nat.leb_le _ _)) by lia. simpl.
      rewrite take_app_length.
      replace (length pre + 1) with (S (length pre)) by lia.
      replace (drop (S (length pre)) (pre ++ a :: rest ++ replicate k lastAddr))
        with (rest ++ replicate k lastAddr)
        by (by rewrite (cons_middle a), app_assoc,
              drop_app_length' by (rewrite length_app; simpl; lia)).
      replace (length pre + S (length rest) - S (length pre)) with (length rest) by lia.
      rewrite take_app_length.
      replace (length pre + S (length rest) - 1) with (length pre + length rest) by lia.
      rewrite (drop_app_add' pre _ (length pre) (length rest)) by done.
      destruct rest as [|b rest'].
      * (* it was the last record *)
        simpl. assert (a = lastAddr) as -> by (by injection (Hlast ltac:(done))).
        rewrite Ha, orb_false_r. simpl. rewrite Nat.add_0_r.
        destruct k as [|k]; simpl.
        { by rewrite take_app_length, app_nil_r. }
        unfold index. rewrite lookup_app_r by lia.
        replace (S (length pre) - length pre) with 1 by lia. simpl.
        rewrite Ha. unfold removeAt.
        replace (S (length pre) + 1 <=? length pre)%nat with false
          by (symmetry; apply Nat.leb_gt; lia).
        by rewrite andb_false_r.
      * (* the record behind it is kept, unread *)
        assert (drop (length (b :: rest')) (a :: (b :: rest') ++ replicate k lastAddr)
                = replicate (S k) lastAddr) as ->.
        { assert (last (b :: rest') = Some lastAddr) as Hl by (by apply Hlast).
          destruct (last_Some (b :: rest') lastAddr) as [(front & Hfront) _]; [done|].
          rewrite Hfront.
          replace (a :: (front ++ [lastAddr]) ++ replicate k lastAddr)
            with ((a :: front) ++ replicate (S k) lastAddr)
            by (simpl; by rewrite <- app_assoc).
          apply drop_app_length'. rewrite length_app. simpl. lia. }
        simpl existsb. rewrite Ha, orb_true_r, andb_true_r.
        replace (S (length pre)) with (length (pre ++ [b]))
          by (rewrite length_app; simpl; lia).
        replace (length (b :: rest') + k) with (length rest' + S k) by (simpl; lia).
        replace (pre ++ (b :: rest') ++ replicate (S k) lastAddr)
          with ((pre ++ [b]) ++ rest' ++ replicate (S k) lastAddr)
          by (by rewrite <- app_assoc).
        replace (length pre + length (b :: rest')) with (length (pre ++ [b]) + length rest')
          by (rewrite length_app; simpl; lia).
        rewrite (IH rest' (pre ++ [b]) (S k)).
        -- change (0 <? S k)%nat with true. rewrite orb_true_l, andb_true_r.
           by rewrite <- app_assoc.
        -- simpl in Hn. lia.
        -- intros Hne. rewrite <- Hlast by done. by destruct rest'.
    + (* the record at [j] stays *)
      replace (S (length pre)) with (length (pre ++ [a]))
        by (rewrite length_app; simpl; lia).
      replace (pre ++ a :: rest ++ replicate k lastAddr)
        with ((pre ++ [a]) ++ rest ++ replicate k lastAddr)
        by (by rewrite <- app_assoc).
      replace (length pre + S (length rest)) with (length (pre ++ [a]) + length rest)
        by (rewrite length_app; simpl; lia).
      rewrite (IH rest (pre ++ [a]) k).
      * rewrite <- app_assoc.
        destruct rest as [|b rest']; simpl; rewrite ?Ha; done.
      * simpl in Hn. lia.
      * intros Hne. rewrite <- Hlast by done. by destruct rest.
Qed.

(** Property X1. For one entry of [RecordsToRemove], the loop over
    [addresses] panics exactly when the last address matches the entry and
    an address before it matches too; in every other case it ends and
    leaves the addresses of [removeSkipping]: each record found to match is
    dropped and the record behind it is kept without being compared. *)
Theorem removeRecord_exact (removeAddr : SRV) (addresses : list SRV) :
  removeRecord removeAddr addresses =
    if removalPanics removeAddr addresses then Panic
    else Done (removeSkipping removeAddr addresses).
Proof.
  unfold removeRecord, removalPanics.
  pose proof (removeScan_live removeAddr (default removeAddr (last addresses))
                (length addresses) addresses [] 0 (le_n _)) as H.
  simpl in H. rewrite Nat.add_0_r, app_nil_r in H.
  rewrite H.
  - destruct (last addresses) as [lastAddr|] eqn:E; simpl; [done|].
    apply last_None in E as ->. simpl. by rewrite andb_false_r.
  - intros Hne. destruct (last addresses) eqn:E; [done|].
    by apply last_None in E.
Qed.

(** *** The test records and the answer of the resolver *)

Lemma fetchSeedlistFromSRV_eval (env : Env) (d : DnsResolver) (host : string) :
  fetchSeedlistFromSRV env d host =
    match SplitHostPort host with
    | inl _ => (Done ([], Some ErrPortNumber), [])
    | inr _ =>
        match LookupSRV env "mongodb" "tcp" host with
        | Failed err => (Done ([], Some (ErrLookupSRV err)), [QuerySRV "mongodb" "tcp" host])
        | Found (_, addrs) =>
            (ws ← removeRecords (RecordsToRemove d) (addrs ++ RecordsToAdd d);
             mret (match firstError host ws with
                   | Some e => ([], Some e)
                   | None => (map seed ws, None)
                   end),
             [QuerySRV "mongodb" "tcp" host])
        end
    end.
Proof.
  unfold fetchSeedlistFromSRV.
  destruct (SplitHostPort host); [done|].
  destruct (LookupSRV env "mongodb" "tcp" host) as [[cname addrs]|err]; [|done].
  simpl. destruct (removeRecords _ _) as [ws|]; simpl; [|done].
  by rewrite formatSeeds_fresh.
Qed.

(** Without test records the call works on the answer as it is. *)
Lemma fetchSeedlistFromSRV_answering (env : Env) (host : string) (ws : list SRV) :
  fetchSeedlistFromSRV (answering env ws) noTestRecords host =
    match SplitHostPort host with
    | inl _ => (Done ([], Some ErrPortNumber), [])
    | inr _ =>
        (Done (match firstError host ws with
               | Some e => ([], Some e)
               | None => (map seed ws, None)
               end),
         [QuerySRV "mongodb" "tcp" host])
    end.
Proof.
  rewrite fetchSeedlistFromSRV_eval. destruct (SplitHostPort host); [done|].
  simpl. by rewrite app_nil_r.
Qed.

(** Property X2. The test records mimic a change of the DNS records: when
    the lookup answers and no two of its records and [RecordsToAdd] share
    target and port, [fetchSeedlistFromSRV] returns what it returns without
    test records for a resolver whose answer is the records of the lookup
    followed by [RecordsToAdd], less every record that has the target and
    port of an entry of [RecordsToRemove]; in particular it does not
    panic. *)
Theorem test_records_mimic_dns_change (env : Env) (d : DnsResolver) (host cname : string)
    (addrs : list SRV) :
  LookupSRV env "mongodb" "tcp" host = Found (cname, addrs) ->
  NoDup (map key (addrs ++ RecordsToAdd d)) ->
  fetchSeedlistFromSRV env d host =
    fetchSeedlistFromSRV
      (answering env (filter (fun addr => kept (RecordsToRemove d) addr)
                             (addrs ++ RecordsToAdd d)))
      noTestRecords host /\
  (fetchSeedlistFromSRV env d host).1 <> Panic.
Proof.
  intros Hlookup Hnd.
  rewrite fetchSeedlistFromSRV_answering, fetchSeedlistFromSRV_eval, Hlookup.
  rewrite removeRecords_distinct by done.
  destruct (SplitHostPort host); done.
Qed.

Lemma test_records_mimic_dns_change_witness :
  fetchSeedlistFromSRV
    (resolver [srv "b.example.com." 27018; srv "a.example.com." 27017] (Found []) "linux")
    (testRecords [srv "c.example.com" 27019] [srv "a.example.com." 27017])
    "cluster0.example.com"
  = fetchSeedlistFromSRV
      (answering
         (resolver [srv "b.example.com." 27018; srv "a.example.com." 27017] (Found []) "linux")
         [srv "b.example.com." 27018; srv "c.example.com" 27019])
      noTestRecords "cluster0.example.com".
Proof.
  apply (test_records_mimic_dns_change
           (resolver [srv "b.example.com." 27018; srv "a.example.com." 27017] (Found []) "linux")
           (testRecords [srv "c.example.com" 27019] [srv "a.example.com." 27017])
           "cluster0.example.com" ""
           [srv "b.example.com." 27018; srv "a.example.com." 27017]).
  - reflexivity.
  - apply (bool_decide_unpack _). vm_compute. exact I.
Defined.

(** Property X3. Adding a record and removing it again changes nothing:
    when the records of the answer differ from each other and from [r] in
    target or port, the call with [r] in both [RecordsToAdd] and
    [RecordsToRemove] returns what the call without test records returns. *)
Theorem add_then_remove_is_identity (env : Env) (host : string) (r : SRV) :
  (forall cname addrs,
     LookupSRV env "mongodb" "tcp" host = Found (cname, addrs) ->
     NoDup (map key addrs) /\ key r ∉ map key addrs) ->
  fetchSeedlistFromSRV env (testRecords [r] [r]) host =
    fetchSeedlistFromSRV env noTestRecords host.
Proof.
  intros Hanswer. rewrite !fetchSeedlistFromSRV_eval.
  destruct (SplitHostPort host); [done|].
  destruct (LookupSRV env "mongodb" "tcp" host) as [[cname addrs]|err] eqn:E; [|done].
  destruct (Hanswer cname addrs eq_refl) as [Hnd Hr].
  simpl RecordsToRemove. simpl RecordsToAdd.
  rewrite removeRecords_distinct.
  2:{ rewrite map_app. simpl. apply NoDup_app. split_and!; [done| |apply NoDup_singleton].
      intros x Hx ->%list_elem_of_singleton. done. }
  simpl removeRecords. rewrite app_nil_r.
  assert (filter (fun addr => kept [r] addr) (addrs ++ [r]) = addrs) as ->; [|done].
  rewrite filter_app.
  assert (sameTargetPort r r = true) as Hrr by (by apply sameTargetPort_key).
  rewrite (filter_cons_False _ r) by (unfold kept; simpl; rewrite Hrr; exact id).
  rewrite filter_nil, app_nil_r.
  clear E Hnd Hanswer. induction addrs as [|a l IH]; [done|].
  simpl in Hr. apply not_elem_of_cons in Hr as [Hne Hr].
  rewrite filter_cons_True.
  - f_equal. by apply IH.
  - unfold kept. simpl.
    destruct (sameTargetPort r a) eqn:Ha; [|exact I].
    by apply sameTargetPort_key in Ha.
Qed.

Lemma add_then_remove_is_identity_witness :
  fetchSeedlistFromSRV
    (resolver [srv "b.example.com." 27018; srv "a.example.com." 27017] (Found []) "linux")
    (testRecords [srv "c.example.com" 27019] [srv "c.example.com" 27019])
    "cluster0.example.com"
  = fetchSeedlistFromSRV
      (resolver [srv "b.example.com." 27018; srv "a.example.com." 27017] (Found []) "linux")
      noTestRecords "cluster0.example.com".
Proof.
  apply (add_then_remove_is_identity
           (resolver [srv "b.example.com." 27018; srv "a.example.com." 27017] (Found []) "linux")
           "cluster0.example.com" (srv "c.example.com" 27019)).
  intros cname addrs [= <- <-]. split.
  - apply (bool_decide_unpack _). vm_compute. exact I.
  - apply (bool_decide_unpack _). vm_compute. exact I.
Defined.

(** Property X4. Entries of [RecordsToRemove] that match no record are
    without effect: when no record of the answer or of [RecordsToAdd] has
    the target and port of an entry to remove, the call returns what it
    returns with [RecordsToRemove] empty, whether or not the records differ
    from each other. *)
Theorem removing_absent_records_is_noop (env : Env) (d : DnsResolver) (host : string) :
  (forall cname addrs removeAddr addr,
     LookupSRV env "mongodb" "tcp" host = Found (cname, addrs) ->
     removeAddr ∈ RecordsToRemove d -> addr ∈ addrs ++ RecordsToAdd d ->
     sameTargetPort removeAddr addr = false) ->
  fetchSeedlistFromSRV env d host =
    fetchSeedlistFromSRV env (testRecords (RecordsToAdd d) []) host.
Proof.
  intros Habsent. rewrite !fetchSeedlistFromSRV_eval.
  destruct (SplitHostPort host); [done|].
  destruct (LookupSRV env "mongodb" "tcp" host) as [[cname addrs]|err] eqn:E; [|done].
  simpl RecordsToRemove. simpl RecordsToAdd. simpl removeRecords.
  rewrite removeRecords_absent; [done|].
  intros removeAddr addr. by apply (Habsent cname addrs).
Qed.

Lemma removing_absent_records_is_noop_witness :
  fetchSeedlistFromSRV
    (resolver [srv "a.example.com." 27017; srv "a.example.com." 27017] (Found []) "linux")
    (testRecords [] [srv "a.example.com." 27018; srv "a.example.com" 27017])
    "cluster0.example.com"
  = fetchSeedlistFromSRV
      (resolver [srv "a.example.com." 27017; srv "a.example.com." 27017] (Found []) "linux")
      (testRecords [] []) "cluster0.example.com".
Proof.
  apply (removing_absent_records_is_noop
           (resolver [srv "a.example.com." 27017; srv "a.example.com." 27017] (Found []) "linux")
           (testRecords [] [srv "a.example.com." 27018; srv "a.example.com" 27017])
           "cluster0.example.com").
  intros cname addrs removeAddr addr [= <- <-] Hrm Haddr.
  simpl in Hrm, Haddr.
  repeat (apply elem_of_cons in Hrm as [-> | Hrm]);
    repeat (apply elem_of_cons in Haddr as [-> | Haddr]);
    try reflexivity; try (by apply elem_of_nil in Hrm); by apply elem_of_nil in Haddr.
Defined.



(** *** validateSRVResult and the labels *)

Lemma Split_app_sep (a b : string) (c : ascii) :
  strings.Split (a ++ String c b) c = strings.Split a c ++ strings.Split b c.
Proof.
  induction a as [|x a IH]; simpl.
  - by rewrite Ascii.eqb_refl.
  - destruct (Ascii.eqb x c); [by rewrite IH|].
    rewrite IH. pose proof (Split_nonempty a c).
    by destruct (strings.Split a c).
Qed.

Lemma labels_cons (name : string) : exists first, labels name = first :: parent name.
Proof.
  unfold parent, labels. pose proof (Split_nonempty name ".").
  destruct (strings.Split name ".") as [|first rest]; [done|]. by exists first.
Qed.

(** Property X6. [validateSRVResult] accepts exactly the records that have
    at least two labels and are subdomains of the parent of the host, with
    at least one label in front of it. So the host itself is accepted when
    it has two labels or more, and the parent of the host is never
    accepted. *)
Theorem validateSRVResult_accepts_subdomains (recordFromSRV inputHostName : string) :
  (validateSRVResult recordFromSRV inputHostName = Done None <->
     2 <= length (labels recordFromSRV) /\
     subdomain (labels recordFromSRV) (parent inputHostName)) /\
  (2 <= length (labels inputHostName) ->
     validateSRVResult inputHostName inputHostName = Done None) /\
  (labels recordFromSRV = parent inputHostName ->
     exists e, validateSRVResult recordFromSRV inputHostName = Done (Some e)).
Proof.
  rewrite !validateSRVResult_eval. split_and!.
  - rewrite <- suffixError_None_subdomain. split; [by intros [= ->] | by intros ->].
  - intros H2. f_equal. apply suffixError_None_subdomain. split; [done|].
    destruct (labels_cons inputHostName) as [first Hl].
    exists [first]. by rewrite Hl.
  - intros Hparent.
    destruct (suffixError recordFromSRV inputHostName) as [e|] eqn:E; [by exists e|].
    apply suffixError_None_subdomain in E as (_ & front & Hne & Heq).
    rewrite Hparent in Heq. apply (f_equal length) in Heq.
    rewrite length_app in Heq. destruct front; [done | simpl in Heq; lia].
Qed.

Lemma validateSRVResult_accepts_subdomains_witness :
  validateSRVResult "cluster0.example.com" "cluster0.example.com" = Done None /\
  exists e, validateSRVResult "example.com" "cluster0.example.com" = Done (Some e).
Proof.
  split.
  - apply (proj1 (proj2 (validateSRVResult_accepts_subdomains
                           "cluster0.example.com" "cluster0.example.com"))).
    vm_compute. lia.
  - apply (proj2 (proj2 (validateSRVResult_accepts_subdomains
                           "example.com" "cluster0.example.com"))).
    reflexivity.
Defined.

(** Property X7. The first label of the discovery host is never compared:
    two hosts with the same labels behind the first get the same answer
    from [validateSRVResult] for every record; so do two hosts that differ
    only in a first label without a dot. *)
Theorem first_host_label_is_ignored (recordFromSRV : string) :
  (forall host host' : string,
     parent host = parent host' ->
     validateSRVResult recordFromSRV host = validateSRVResult recordFromSRV host') /\
  (forall first first' rest : string,
     strings.IndexByte first "." = None -> strings.IndexByte first' "." = None ->
     validateSRVResult recordFromSRV (first ++ "." ++ rest)
       = validateSRVResult recordFromSRV (first' ++ "." ++ rest)).
Proof.
  assert (forall host host', parent host = parent host' ->
            validateSRVResult recordFromSRV host = validateSRVResult recordFromSRV host')
    as Hparent.
  { intros host host' Hp. rewrite !validateSRVResult_eval. f_equal.
    unfold suffixError.
    destruct (labels_cons host) as [f Hl], (labels_cons host') as [f' Hl'].
    fold (parent host) (parent host'). rewrite Hl, Hl', Hp. simpl length. done. }
  split; [done|].
  intros first first' rest Hf Hf'. apply Hparent. unfold parent, labels.
  change (first ++ "." ++ rest)%string with (first ++ String "." rest)%string.
  change (first' ++ "." ++ rest)%string with (first' ++ String "." rest)%string.
  rewrite !Split_app_sep.
  by rewrite (Split_no_sep first), (Split_no_sep first') by done.
Qed.

Lemma first_host_label_is_ignored_witness :
  validateSRVResult "node.example.com" "cluster0.example.com"
  = validateSRVResult "node.example.com" "other.example.com".
Proof.
  apply (proj2 (first_host_label_is_ignored "node.example.com")
           "cluster0" "other" "example.com"); reflexivity.
Defined.

(** Property X8. Labels in front of an accepted record do no harm: when
    [validateSRVResult] accepts a record for a host, it accepts every name
    made of further labels, a dot and that record. *)
Theorem deeper_subdomain_is_accepted (front recordFromSRV inputHostName : string) :
  validateSRVResult recordFromSRV inputHostName = Done None ->
  validateSRVResult (front ++ "." ++ recordFromSRV) inputHostName = Done None.
Proof.
  rewrite !validateSRVResult_eval. intros [= H]. f_equal.
  apply suffixError_None_subdomain in H as (H2 & pre & Hne & Heq).
  apply suffixError_None_subdomain. unfold labels in *.
  change (front ++ "." ++ recordFromSRV)%string
    with (front ++ String "." recordFromSRV)%string.
  rewrite Split_app_sep. split.
  - rewrite length_app. lia.
  - exists (strings.Split front "." ++ pre). split.
    + intros Hnil. by apply app_eq_nil in Hnil as [_ ?].
    + by rewrite Heq, app_assoc.
Qed.

Lemma deeper_subdomain_is_accepted_witness :
  validateSRVResult ("shard0.rack2" ++ "." ++ "node.example.com") "cluster0.example.com"
  = Done None.
Proof.
  apply (deeper_subdomain_is_accepted "shard0.rack2" "node.example.com" "cluster0.example.com").
  reflexivity.
Defined.

(** *** The entry point for SRV records *)

(** Property X9. [ResolveHostFromSrvRecords] adds nothing but the test for
    a comma: for a host without a comma it returns what
    [fetchSeedlistFromSRV] returns for that host, result and queries (and
    it panics when that does). *)
Theorem ResolveHostFromSrvRecords_is_fetch (env : Env) (d : DnsResolver) (host : string) :
  strings.IndexByte host "," = None ->
  ResolveHostFromSrvRecords env d host = fetchSeedlistFromSRV env d host.
Proof.
  intros Hcomma. rewrite ResolveHostFromSrvRecords_single by done.
  rewrite fetchSeedlistFromSRV_eval.
  destruct (SplitHostPort host); [done|].
  destruct (LookupSRV env "mongodb" "tcp" host) as [[cname addrs]|err]; [|done].
  simpl. destruct (removeRecords _ _) as [ws|]; simpl; [|done].
  by destruct (firstError host ws).
Qed.

Lemma ResolveHostFromSrvRecords_is_fetch_witness :
  ResolveHostFromSrvRecords
    (resolver [srv "a.example.com." 27017] (Found []) "linux") noTestRecords
    "cluster0.example.com"
  = fetchSeedlistFromSRV
      (resolver [srv "a.example.com." 27017] (Found []) "linux") noTestRecords
      "cluster0.example.com".
Proof.
  apply (ResolveHostFromSrvRecords_is_fetch
           (resolver [srv "a.example.com." 27017] (Found []) "linux") noTestRecords
           "cluster0.example.com").
  reflexivity.
Defined.

(** Property X10. A call of [ResolveHostFromSrvRecords] sends at most one
    query to the resolver, the SRV query for the service ["mongodb"] over
    ["tcp"] at the host; it sends none exactly when the host holds a comma
    or has a port. When that query fails, the error of the resolver is
    returned as it is, with no seed. *)
Theorem srv_query_is_sent_once (env : Env) (d : DnsResolver) (host : string) :
  ((ResolveHostFromSrvRecords env d host).2 = [] \/
   (ResolveHostFromSrvRecords env d host).2 = [QuerySRV "mongodb" "tcp" host]) /\
  ((ResolveHostFromSrvRecords env d host).2 = [] <->
   strings.IndexByte host "," <> None \/ exists hp, SplitHostPort host = inl hp) /\
  (forall err,
     strings.IndexByte host "," = None ->
     (exists why, SplitHostPort host = inr why) ->
     LookupSRV env "mongodb" "tcp" host = Failed err ->
     ResolveHostFromSrvRecords env d host
       = (Done ([], Some (ErrLookupSRV err)), [QuerySRV "mongodb" "tcp" host]) /\
     Error (ErrLookupSRV err) = err).
Proof.
  destruct (strings.IndexByte host ",") as [i|] eqn:Hcomma.
  - rewrite ResolveHostFromSrvRecords_several by (by rewrite Hcomma).
    split_and!; [by left | | done]. split; [by left | done].
  - rewrite ResolveHostFromSrvRecords_single by done.
    rewrite fetchSeedlistFromSRV_eval.
    destruct (SplitHostPort host) as [hp|why] eqn:Hsplit.
    + split_and!; [by left | |by intros err _ [why Hwhy]].
      split; [intros _; right; by exists hp | done].
    + split_and!.
      * right. destruct (LookupSRV env "mongodb" "tcp" host) as [[cname addrs]|err]; done.
      * split.
        -- destruct (LookupSRV env "mongodb" "tcp" host) as [[cname addrs]|err]; done.
        -- intros [? | [hp Hhp]]; done.
      * intros err _ _ ->. done.
Qed.

Lemma srv_query_is_sent_once_witness :
  ResolveHostFromSrvRecords
    {| LookupSRV := fun _ _ _ => Failed "no such host";
       LookupTXT := fun _ => Found [];
       GOOS := "linux";
       mapUnicodeLower := fun s => s |}
    noTestRecords "cluster0.example.com"
  = (Done ([], Some (ErrLookupSRV "no such host")),
     [QuerySRV "mongodb" "tcp" "cluster0.example.com"]) /\
  Error (ErrLookupSRV "no such host") = "no such host".
Proof.
  apply (proj2 (proj2 (srv_query_is_sent_once
           {| LookupSRV := fun _ _ _ => Failed "no such host";
              LookupTXT := fun _ => Found [];
              GOOS := "linux";
              mapUnicodeLower := fun s => s |}
           noTestRecords "cluster0.example.com")) "no such host").
  - reflexivity.
  - eexists. vm_compute. reflexivity.
  - reflexivity.
Defined.

(** Property X11. An error and a result exclude each other on both entry
    points: whenever [ResolveHostFromSrvRecords],
    [fetchSeedlistFromSRV] or
    [ResolveAdditionalQueryParametersFromTxtRecords] returns an error, the
    list it returns with it is empty, whatever the error is. *)
Theorem error_comes_with_no_result (env : Env) (d : DnsResolver) (host : string) :
  (forall res e, (fetchSeedlistFromSRV env d host).1 = Done (res, Some e) -> res = []) /\
  (forall res e, (ResolveHostFromSrvRecords env d host).1 = Done (res, Some e) -> res = []) /\
  (forall e, (ResolveAdditionalQueryParametersFromTxtRecords env d host).1.2 = Some e ->
     (ResolveAdditionalQueryParametersFromTxtRecords env d host).1.1 = []).
Proof.
  split_and!.
  - intros res e. rewrite fetchSeedlistFromSRV_eval.
    destruct (SplitHostPort host); [by intros [= <- _]|].
    destruct (LookupSRV env "mongodb" "tcp" host) as [[cname addrs]|err];
      [|by intros [= <- _]].
    simpl. destruct (removeRecords _ _) as [ws|]; simpl; [|done].
    destruct (firstError host ws); [by intros [= <- _] | done].
  - intros res e. unfold ResolveHostFromSrvRecords.
    destruct (negb _); [by intros [= <- _]|].
    destruct (strings.Split host ",") as [|h0 hs]; [done|].
    destruct (fetchSeedlistFromSRV env d h0) as [[[hosts [e'|]]|] q]; simpl;
      [by intros [= <- _] | done | done].
  - intros e. rewrite ResolveTXT_eval. simpl.
    destruct (recordsAfterJoin _ _) as [|r0 [|r1 rest]]; simpl; [done | | done].
    by destruct (validateTXTResult env _).
Qed.

Lemma error_comes_with_no_result_witness :
  (ResolveAdditionalQueryParametersFromTxtRecords
     (resolver [] (Found ["authSource=admin&ssl=true"]) "linux") noTestRecords "h").1.1 = [].
Proof.
  apply (proj2 (proj2 (error_comes_with_no_result
           (resolver [] (Found ["authSource=admin&ssl=true"]) "linux") noTestRecords "h"))
           (ErrOptionNotAllowed "ssl")).
  reflexivity.
Defined.

(** *** The seeds *)

Lemma string_of_uint_no_byte (d : Decimal.uint) (c : ascii) :
  (N_of_ascii c < 48 \/ 57 < N_of_ascii c)%N ->
  strings.IndexByte (NilEmpty.string_of_uint d) c = None.
Proof.
  intros Hc. induction d as [|d IH|d IH|d IH|d IH|d IH|d IH|d IH|d IH|d IH|d IH];
    cbn [strings.IndexByte NilEmpty.string_of_uint]; [done|..]; rewrite IH;
    match goal with
    | |- context [Ascii.eqb ?x c] =>
        destruct (Ascii.eqb_spec x c) as [<-|]; [vm_compute in Hc; by destruct Hc | done]
    end.
Qed.

Lemma TrimSuffix_no_byte (s : string) (suffix c : ascii) :
  strings.IndexByte s c = None -> strings.IndexByte (strings.TrimSuffix s suffix) c = None.
Proof.
  induction s as [|a s IH]; simpl; [done|].
  destruct (Ascii.eqb a c) eqn:Ha; [done|].
  destruct (strings.IndexByte s c) eqn:Hs; [done|]. intros _.
  destruct s as [|b s].
  - destruct (Ascii.eqb a suffix); simpl; [done | by rewrite Ha].
  - simpl in *. rewrite Ha. by rewrite IH.
Qed.

Lemma SplitHostPort_seed (r : SRV) :
  strings.IndexByte (Target r) ":" = None ->
  strings.IndexByte (Target r) "[" = None ->
  strings.IndexByte (Target r) "]" = None ->
  SplitHostPort (seed r) = inl (trimmed r, fmt.decimal (Port r)).
Proof.
  intros H1 H2 H3. unfold seed, fmt.Sprintf_s_colon_d.
  apply SplitHostPort_host_port; try (by apply TrimSuffix_no_byte);
    apply string_of_uint_no_byte; simpl; lia.
Qed.

(** Property X12. A seed can be taken apart again: for a record whose
    target holds no colon and no square bracket, [net.SplitHostPort] splits
    its seed into the target without the trailing dot and the port in
    decimal, and that text reads back as the number of the port. So a seed
    is never accepted as a discovery host: [fetchSeedlistFromSRV] rejects
    it for its port, without a query. *)
Theorem seed_splits_into_target_and_port (env : Env) (d : DnsResolver) (r : SRV) :
  strings.IndexByte (Target r) ":" = None ->
  strings.IndexByte (Target r) "[" = None ->
  strings.IndexByte (Target r) "]" = None ->
  SplitHostPort (fmt.Sprintf_s_colon_d (strings.TrimSuffix (Target r) ".") (Port r))
    = inl (strings.TrimSuffix (Target r) ".", fmt.decimal (Port r)) /\
  option_map N.of_uint (NilEmpty.uint_of_string (fmt.decimal (Port r))) = Some (Port r) /\
  fetchSeedlistFromSRV env d
    (fmt.Sprintf_s_colon_d (strings.TrimSuffix (Target r) ".") (Port r))
    = (Done ([], Some ErrPortNumber), []).
Proof.
  intros H1 H2 H3. pose proof (SplitHostPort_seed r H1 H2 H3) as Hsplit.
  unfold seed, trimmed in Hsplit. split_and!; [done| |].
  - unfold fmt.decimal. rewrite NilEmpty.usu. simpl.
    by rewrite DecimalN.Unsigned.of_to.
  - apply fetchSeedlistFromSRV_port. eexists. exact Hsplit.
Qed.

Lemma seed_splits_into_target_and_port_witness :
  SplitHostPort (fmt.Sprintf_s_colon_d (strings.TrimSuffix "a.example.com." ".") 27017)
    = inl (strings.TrimSuffix "a.example.com." ".", fmt.decimal 27017) /\
  option_map N.of_uint (NilEmpty.uint_of_string (fmt.decimal 27017)) = Some 27017%N /\
  fetchSeedlistFromSRV (resolver [] (Found []) "linux") noTestRecords
    (fmt.Sprintf_s_colon_d (strings.TrimSuffix "a.example.com." ".") 27017)
    = (Done ([], Some ErrPortNumber), []).
Proof.
  apply (seed_splits_into_target_and_port (resolver [] (Found []) "linux") noTestRecords
           (srv "a.example.com." 27017)); reflexivity.
Defined.

(** Property X13. Records that differ give seeds that differ: for two
    records whose targets hold no colon and no square bracket, equal seeds
    mean equal targets, up to the trailing dot, and equal ports. *)
Theorem seeds_are_distinct (r r' : SRV) :
  strings.IndexByte (Target r) ":" = None ->
  strings.IndexByte (Target r) "[" = None ->
  strings.IndexByte (Target r) "]" = None ->
  strings.IndexByte (Target r') ":" = None ->
  strings.IndexByte (Target r') "[" = None ->
  strings.IndexByte (Target r') "]" = None ->
  fmt.Sprintf_s_colon_d (strings.TrimSuffix (Target r) ".") (Port r)
    = fmt.Sprintf_s_colon_d (strings.TrimSuffix (Target r') ".") (Port r') ->
  strings.TrimSuffix (Target r) "." = strings.TrimSuffix (Target r') "." /\
  Port r = Port r'.
Proof.
  intros H1 H2 H3 H1' H2' H3' Heq.
  pose proof (SplitHostPort_seed r H1 H2 H3) as Hs.
  pose proof (SplitHostPort_seed r' H1' H2' H3') as Hs'.
  unfold seed, trimmed in Hs, Hs'. rewrite Heq, Hs' in Hs.
  injection Hs as Ht Hp. split; [done|].
  apply (f_equal (fun s => option_map N.of_uint (NilEmpty.uint_of_string s))) in Hp.
  unfold fmt.decimal in Hp. rewrite !NilEmpty.usu in Hp. simpl in Hp.
  rewrite !DecimalN.Unsigned.of_to in Hp. by injection Hp.
Qed.

Lemma seeds_are_distinct_witness :
  strings.TrimSuffix "a.example.com." "." = strings.TrimSuffix "a.example.com" "." /\
  27017%N = 27017%N.
Proof.
  apply (seeds_are_distinct (srv "a.example.com." 27017) (srv "a.example.com" 27017));
    reflexivity.
Defined.

(** Property X14. The removal loop compares the targets as they are, before
    the trailing dot is taken off: an entry to remove does not match the
    record whose target is the target of the entry followed by a dot, and
    the loop leaves that record in place, although the two give the same
    seed when their ports are equal. *)
Theorem removal_compares_untrimmed_targets (removeAddr addr : SRV)
    (before after : list SRV) :
  Target addr = (Target removeAddr ++ ".")%string ->
  (forall a, a ∈ before ++ after -> sameTargetPort removeAddr a = false) ->
  removeRecord removeAddr (before ++ addr :: after) = Done (before ++ addr :: after) /\
  ((forall t, Target removeAddr <> (t ++ ".")%string) ->
   Port addr = Port removeAddr ->
   fmt.Sprintf_s_colon_d (strings.TrimSuffix (Target addr) ".") (Port addr)
   = fmt.Sprintf_s_colon_d (strings.TrimSuffix (Target removeAddr) ".") (Port removeAddr)).
Proof.
  intros Htarget Hrest. split.
  - apply removeRecord_absent. intros a Ha.
    apply elem_of_app in Ha as [Ha | [-> | Ha]%elem_of_cons];
      [apply Hrest, elem_of_app; by left | | apply Hrest, elem_of_app; by right].
    unfold sameTargetPort. rewrite Htarget.
    destruct (String.eqb_spec (Target removeAddr) (Target removeAddr ++ ".")) as [Heq|];
      [|done].
    apply (f_equal String.length) in Heq. rewrite length_append in Heq. simpl in Heq. lia.
  - intros Hnodot ->. rewrite Htarget.
    change (Target removeAddr ++ ".")%string with (Target removeAddr ++ String "." "")%string.
    by rewrite TrimSuffix_app, TrimSuffix_id.
Qed.

Lemma removal_compares_untrimmed_targets_witness :
  removeRecord (srv "a.example.com" 27017)
    ([srv "b.example.com." 27018] ++ srv "a.example.com." 27017 :: [])
  = Done ([srv "b.example.com." 27018] ++ srv "a.example.com." 27017 :: []).
Proof.
  apply (proj1 (removal_compares_untrimmed_targets
                  (srv "a.example.com" 27017) (srv "a.example.com." 27017)
                  [srv "b.example.com." 27018] [] eq_refl
                  ltac:(intros a [-> | Ha]%elem_of_cons;
                          [reflexivity | by apply elem_of_nil in Ha]))).
Defined.

(** *** The options of a TXT record *)

Lemma isField_cons (f : ascii -> bool) (a : ascii) (t : string) :
  isField f (String a t) -> f a = false /\ (t = "" \/ isField f t).
Proof.
  intros [_ Hfree]. split.
  - destruct (f a) eqn:E; [|done]. specialize (Hfree a E). simpl in Hfree.
    by rewrite Ascii.eqb_refl in Hfree.
  - destruct t as [|b t]; [by left|]. right. split; [done|].
    intros c Hc. specialize (Hfree c Hc). simpl in *.
    destruct (Ascii.eqb a c); [done|].
    by destruct (Ascii.eqb b c), (strings.IndexByte t c).
Qed.

Lemma FieldsFunc_fields (s : string) (f : ascii -> bool) :
  Forall (isField f) (strings.FieldsFunc s f).
Proof.
  assert (forall a, f a = false -> isField f (String a "")) as Hone.
  { intros a Ha. split; [done|]. intros c Hc. simpl.
    destruct (Ascii.eqb_spec a c) as [->|]; [congruence | done]. }
  assert (forall a t, f a = false -> isField f t -> isField f (String a t)) as Hcons.
  { intros a t Ha [_ Ht]. split; [done|]. intros c Hc. simpl.
    destruct (Ascii.eqb_spec a c) as [->|]; [congruence|]. by rewrite Ht. }
  induction s as [|a s IH]; [constructor|].
  cbn [strings.FieldsFunc].
  destruct (f a) eqn:Ha; [done|].
  destruct s as [|b s]; [by repeat constructor; apply Hone|].
  destruct (f b) eqn:Hb; [constructor; [by apply Hone | done]|].
  destruct (strings.FieldsFunc (String b s) f) as [|field fields];
    [by repeat constructor; apply Hone|].
  apply Forall_cons in IH as [Hfield Hfields].
  constructor; [by apply Hcons | done].
Qed.

Lemma FieldsFunc_field (t : string) (f : ascii -> bool) :
  isField f t -> strings.FieldsFunc t f = [t].
Proof.
  induction t as [|a t IH]; intros Ht; [by destruct Ht|].
  apply isField_cons in Ht as Hcons. destruct Hcons as [Ha [-> | Ht']].
  - simpl. by rewrite Ha.
  - cbn [strings.FieldsFunc]. rewrite Ha.
    destruct t as [|b t]; [by destruct Ht'|].
    apply isField_cons in Ht' as Hb. destruct Hb as [Hb _].
    lazy beta iota. rewrite Hb.
    by rewrite IH.
Qed.

Lemma FieldsFunc_field_sep (t rest : string) (sep : ascii) (f : ascii -> bool) :
  f sep = true -> isField f t ->
  strings.FieldsFunc (t ++ String sep rest) f = t :: strings.FieldsFunc rest f.
Proof.
  intros Hsep. induction t as [|a t IH]; intros Ht; [by destruct Ht|].
  apply isField_cons in Ht as Hcons. destruct Hcons as [Ha [-> | Ht']].
  - simpl. by rewrite Ha, Hsep.
  - change (String a t ++ String sep rest)%string with (String a (t ++ String sep rest)).
    cbn [strings.FieldsFunc]. rewrite Ha.
    destruct t as [|b t]; [by destruct Ht'|].
    apply isField_cons in Ht' as Hb. destruct Hb as [Hb _].
    change (String b t ++ String sep rest)%string with (String b (t ++ String sep rest)).
    lazy beta iota. rewrite Hb.
    change (String b (t ++ String sep rest)) with (String b t ++ String sep rest)%string.
    by rewrite IH.
Qed.

Lemma FieldsFunc_joinOptions (options : list string) (sep : ascii) (f : ascii -> bool) :
  f sep = true -> Forall (isField f) options ->
  strings.FieldsFunc (joinOptions sep options) f = options.
Proof.
  intros Hsep. induction options as [|o rest IH]; intros Hall; [done|].
  apply Forall_cons in Hall as [Ho Hrest].
  destruct rest as [|o' rest'].
  - simpl. by apply FieldsFunc_field.
  - change (joinOptions sep (o :: o' :: rest'))
      with (o ++ String sep (joinOptions sep (o' :: rest')))%string.
    rewrite FieldsFunc_field_sep by done. by rewrite IH.
Qed.

(** Property X15. What the TXT entry point returns without an error are
    well-formed options: none is empty, none holds a [";"] or an ["&"], and
    each has an ["="] behind a key that, lowered, is ["authsource"] or
    ["replicaset"]. *)
Theorem txt_options_are_well_formed (env : Env) (d : DnsResolver) (host : string)
    (options : list string) :
  (ResolveAdditionalQueryParametersFromTxtRecords env d host).1 = (options, None) ->
  Forall (fun o => o <> "" /\
                   strings.IndexByte o ";" = None /\ strings.IndexByte o "&" = None /\
                   goodParam env o) options.
Proof.
  rewrite ResolveTXT_eval. simpl.
  destruct (recordsAfterJoin _ _) as [|r0 [|r1 rest]]; simpl;
    [by intros [= <-]; constructor | | done].
  destruct (validateTXTResult env _) eqn:E; [done|]. intros [= <-].
  apply validateTXTResult_None in E.
  pose proof (FieldsFunc_fields r0 isSeparator) as Hfields.
  rewrite Forall_forall in E, Hfields. apply Forall_forall. intros o Ho.
  destruct (Hfields o Ho) as [Hne Hfree].
  split_and!; [done | by apply Hfree | by apply Hfree | by apply E].
Qed.

Lemma txt_options_are_well_formed_witness :
  Forall (fun o => o <> "" /\
                   strings.IndexByte o ";" = None /\ strings.IndexByte o "&" = None /\
                   goodParam (resolver [] (Found [";authSource=admin;&replicaSet=rs0&"]) "linux") o)
    ["authSource=admin"; "replicaSet=rs0"].
Proof.
  apply (txt_options_are_well_formed
           (resolver [] (Found [";authSource=admin;&replicaSet=rs0&"]) "linux")
           noTestRecords "h").
  reflexivity.
Defined.

(** Property X16. Options written into one TXT record come back as they
    were: when the record left after the step for Windows is a list of
    options joined by [";"] or by ["&"], each option not empty, without
    [";"] and ["&"], and with an allowed key, the entry point returns
    exactly that list, in that order. *)
Theorem joined_options_come_back (env : Env) (d : DnsResolver) (host : string)
    (sep : ascii) (options : list string) :
  sep = ";"%char \/ sep = "&"%char ->
  recordsAfterJoin env
    match LookupTXT env host with Found records => records | Failed _ => [] end
    = [joinOptions sep options] ->
  Forall (isField isSeparator) options ->
  Forall (goodParam env) options ->
  ResolveAdditionalQueryParametersFromTxtRecords env d host
    = ((options, None), [QueryTXT host]).
Proof.
  intros Hsep Hrecord Hfields Hgood.
  rewrite ResolveTXT_eval, Hrecord.
  rewrite FieldsFunc_joinOptions by (done || by destruct Hsep as [-> | ->]).
  apply validateTXTResult_None in Hgood. by rewrite Hgood.
Qed.

Lemma joined_options_come_back_witness :
  ResolveAdditionalQueryParametersFromTxtRecords
    (resolver [] (Found ["replicaSet=rs0&authSource=admin"]) "linux") noTestRecords "h"
  = ((["replicaSet=rs0"; "authSource=admin"], None), [QueryTXT "h"]).
Proof.
  apply (joined_options_come_back
           (resolver [] (Found ["replicaSet=rs0&authSource=admin"]) "linux") noTestRecords "h"
           "&" ["replicaSet=rs0"; "authSource=admin"]).
  - by right.
  - reflexivity.
  - assert (forall t, t <> "" ->
              strings.IndexByte t ";" = None -> strings.IndexByte t "&" = None ->
              isField isSeparator t) as Hfield.
    { intros t Hne H1 H2. split; [done|]. intros c Hc. unfold isSeparator in Hc.
      apply orb_true_iff in Hc as [Hc | Hc]; by apply Ascii.eqb_eq in Hc as ->. }
    constructor; [by apply Hfield|]. constructor; [by apply Hfield|]. constructor.
  - repeat constructor.
    + exists "replicaSet", "rs0". split; [reflexivity | by right].
    + exists "authSource", "admin". split; [reflexivity | by left].
Defined.

Lemma Cut_app_sep (key value : string) (sep : ascii) :
  strings.IndexByte key sep = None ->
  strings.Cut (key ++ String sep value) sep = Some (key, value).
Proof.
  induction key as [|a key IH]; simpl.
  - intros _. by rewrite Ascii.eqb_refl.
  - destruct (Ascii.eqb a sep); [done|].
    destruct (strings.IndexByte key sep); [done|]. intros _. by rewrite IH.
Qed.

(** Property X17. The value of an option is never looked at: changing the
    text behind the first ["="] of a token, to anything, also to nothing or
    to a text with further ["="], does not change what [validateTXTResult]
    returns for the list of tokens. *)
Theorem txt_value_is_not_validated (env : Env) (before after : list string)
    (key value value' : string) :
  strings.IndexByte key "=" = None ->
  validateTXTResult env (before ++ (key ++ "=" ++ value)%string :: after)
  = validateTXTResult env (before ++ (key ++ "=" ++ value')%string :: after).
Proof.
  intros Hkey. induction before as [|b before IH].
  - cbn [app validateTXTResult]. unfold validateTXTParam, strings.SplitN2.
    change (key ++ "=" ++ value)%string with (key ++ String "=" value)%string.
    change (key ++ "=" ++ value')%string with (key ++ String "=" value')%string.
    by rewrite !Cut_app_sep.
  - rewrite <- !app_comm_cons. cbn [validateTXTResult]. by rewrite IH.
Qed.

Lemma txt_value_is_not_validated_witness :
  validateTXTResult (resolver [] (Found []) "linux")
    ([] ++ ("authSource" ++ "=" ++ "admin")%string :: ["replicaSet=rs0"])
  = validateTXTResult (resolver [] (Found []) "linux")
      ([] ++ ("authSource" ++ "=" ++ "=a=b=")%string :: ["replicaSet=rs0"]).
Proof.
  apply (txt_value_is_not_validated (resolver [] (Found []) "linux")
           [] ["replicaSet=rs0"] "authSource" "admin" "=a=b=").
  reflexivity.
Defined.

Lemma validateTXTResult_ext (env env' : Env) (params : list string) :
  mapUnicodeLower env = mapUnicodeLower env' ->
  validateTXTResult env params = validateTXTResult env' params.
Proof.
  intros Hmap. induction params as [|p l IH]; [done|].
  cbn [validateTXTResult]. unfold validateTXTParam. by rewrite Hmap, IH.
Qed.

(** Property X18. On Windows the TXT entry point works on the join of all
    records: it returns what it returns on another platform for a lookup
    that answers with that one joined record, and it never returns the
    error for multiple records; a lookup that fails counts as one empty
    record. *)
Theorem windows_joins_txt_records (env : Env) (d : DnsResolver) (host : string) :
  GOOS env = "windows" ->
  ResolveAdditionalQueryParametersFromTxtRecords env d host
  = ResolveAdditionalQueryParametersFromTxtRecords
      (withTXT env "linux"
         (Found [strings.Join
                   match LookupTXT env host with Found records => records | Failed _ => [] end]))
      d host /\
  (ResolveAdditionalQueryParametersFromTxtRecords env d host).1.2 <> Some ErrMultipleTXT.
Proof.
  intros Hwin. rewrite !ResolveTXT_eval.
  rewrite recordsAfterJoin_windows by done.
  rewrite recordsAfterJoin_other by done. simpl.
  rewrite <- (validateTXTResult_ext env (withTXT env "linux" _)) by done.
  split; [done|].
  destruct (validateTXTResult _ _) as [e|] eqn:E; simpl; [|done].
  intros [= ->]. clear Hwin.
  revert E. generalize (strings.FieldsFunc
    (strings.Join match LookupTXT env host with Found records => records | Failed _ => [] end)
    isSeparator).
  intros l. induction l as [|p l IH]; simpl; [done|].
  destruct (validateTXTParam env p) as [e|] eqn:Ep; [|done].
  intros [= ->]. by apply validateTXTParam_Some in Ep as [[_ ?] | (? & ? & _ & _ & ?)].
Qed.

Lemma windows_joins_txt_records_witness :
  ResolveAdditionalQueryParametersFromTxtRecords
    (resolver [] (Found ["authSource=ad"; "min&replica"; "Set=rs0"]) "windows") noTestRecords "h"
  = ResolveAdditionalQueryParametersFromTxtRecords
      (withTXT (resolver [] (Found ["authSource=ad"; "min&replica"; "Set=rs0"]) "windows")
         "linux" (Found [strings.Join ["authSource=ad"; "min&replica"; "Set=rs0"]]))
      noTestRecords "h" /\
  (ResolveAdditionalQueryParametersFromTxtRecords
     (resolver [] (Found ["authSource=ad"; "min&replica"; "Set=rs0"]) "windows")
     noTestRecords "h").1.2 <> Some ErrMultipleTXT.
Proof.
  apply (windows_joins_txt_records
           (resolver [] (Found ["authSource=ad"; "min&replica"; "Set=rs0"]) "windows")
           noTestRecords "h").
  reflexivity.
Defined.

Lemma FieldsFunc_nil (s : string) (f : ascii -> bool) :
  strings.FieldsFunc s f = [] <-> allBytes f s = true.
Proof.
  induction s as [|a s IH]; [done|].
  cbn [strings.FieldsFunc allBytes].
  destruct (f a); simpl; [done|].
  split; [|done].
  destruct s as [|b s]; [done|].
  destruct (f b); [done|]. by destruct (strings.FieldsFunc (String b s) f).
Qed.

(** Property X19. A TXT record without any option is not an error: when
    the one record left is empty or holds nothing but [";"] and ["&"], the
    entry point returns an empty list and no error, and these are the only
    single records for which it does. *)
Theorem empty_txt_record_gives_no_option (env : Env) (d : DnsResolver) (host record : string) :
  recordsAfterJoin env
    match LookupTXT env host with Found records => records | Failed _ => [] end
    = [record] ->
  (ResolveAdditionalQueryParametersFromTxtRecords env d host = (([], None), [QueryTXT host])
   <-> allBytes isSeparator record = true).
Proof.
  intros Hrecord. rewrite ResolveTXT_eval, Hrecord, <- FieldsFunc_nil.
  destruct (strings.FieldsFunc record isSeparator) as [|o options] eqn:E; [done|].
  split; [|done].
  destruct (validateTXTResult env (o :: options)); [done | by intros [= ?]].
Qed.

Lemma empty_txt_record_gives_no_option_witness :
  ResolveAdditionalQueryParametersFromTxtRecords
    (resolver [] (Found [";&&;"]) "linux") noTestRecords "h" = (([], None), [QueryTXT "h"]).
Proof.
  apply (empty_txt_record_gives_no_option
           (resolver [] (Found [";&&;"]) "linux") noTestRecords "h" ";&&;" eq_refl).
  reflexivity.
Defined.
